(** * Inventory store: a shallow embedding of [inventory_system.py]

    The class [Inventory] keeps a dictionary [stock_data] from item names to
    quantities and the path of its JSON backing file.  Python values are
    embedded as the inductive [pyval]; a dictionary is a finite map with
    string keys; a method is a function from the instance and the outside
    world (files and the log) to an [outcome] that either returns with the
    new instance and world or raises an exception. *)

From stdpp Require Import gmap strings list fin_maps pretty sorting.
From Stdlib Require Import Ascii.

#[local] Set Warnings "-register-all,-clear-no-such-hyp".
#[local] Open Scope string_scope.
#[local] Open Scope Z_scope.

(** ** Python values *)

(** The values that [json.load] can produce and that the methods receive.
    Numbers with a fraction or an exponent (Python floats) are left out:
    no statement below speaks of a stock that holds one. *)
Inductive pyval :=
| PNone
| PBool (b : bool)
| PInt (n : Z)
| PStr (s : string)
| PList (l : list pyval)
| PDict (d : gmap string pyval).

(** [isinstance(v, int)] holds of integers and of booleans ([bool] is a
    subclass of [int], [True] counts as 1 and [False] as 0): [int_value v]
    is [Some n] with the integer the value stands for, [None] when the test
    fails.  [isinstance(v, str)] is the pattern [PStr _]. *)
Definition int_value (v : pyval) : option Z :=
  match v with
  | PInt n => Some n
  | PBool b => Some (Z.b2z b)
  | _ => None
  end.

(** The values that are no numbers of any kind: [None], strings, lists and
    dicts. *)
Definition non_numeric (v : pyval) : bool :=
  match v with
  | PNone | PStr _ | PList _ | PDict _ => true
  | PBool _ | PInt _ => false
  end.

(** [v + n], [v - n] and [v < n] for an integer [n]: defined when [v] is an
    integer (or a bool), a [TypeError] ([None]) on a value that is no
    number. *)
Definition plus_int (v : pyval) (n : Z) : option pyval :=
  x ← int_value v; Some (PInt (x + n)).

Definition minus_int (v : pyval) (n : Z) : option pyval :=
  x ← int_value v; Some (PInt (x - n)).

Definition lt_int (v : pyval) (n : Z) : option bool :=
  x ← int_value v; Some (bool_decide (x < n)).

Definition le_int (v : pyval) (n : Z) : option bool :=
  x ← int_value v; Some (bool_decide (x ≤ n)).

(** [name in v] for a string [name]: key membership in a dict, element
    membership in a list, substring test in a string, a [TypeError]
    ([None]) on values that are not containers. *)
Definition is_str (name : string) (v : pyval) : bool :=
  match v with PStr s => bool_decide (s = name) | _ => false end.

Definition contains (v : pyval) (name : string) : option bool :=
  match v with
  | PDict d => Some (bool_decide (is_Some (d !! name)))
  | PList l => Some (existsb (is_str name) l)
  | PStr s => Some (bool_decide (is_Some (String.index 0 name s)))
  | PNone | PBool _ | PInt _ => None
  end.

(** ** Exceptions, the log and the files *)

(** The subclasses of [OSError] that opening a file raises. *)
Inductive os_error :=
| FileNotFoundError
| PermissionError
| IsADirectoryError
| OtherOSError.

(** The exceptions that leave a method.  [ValueError] stands for the class
    itself, not for its subclasses. *)
Inductive exn :=
| AttributeError
| TypeError
| ValueError
| UnicodeDecodeError
| RecursionError
| OSError (e : os_error).

Inductive level := INFO | WARNING | ERROR.

Inductive log_arg :=
| LVal (v : pyval)
| LExn (e : os_error).

(** A log record keeps the format string and its arguments, as [logging]
    does until the record is emitted. *)
Record log_record := LogRecord {
  lvl : level;
  msg : string;
  args : list log_arg
}.

(** What is at a path.  [Regular text] is a file that can be read and
    written; its content is the bytes of [text].  [Unavailable e] cannot be
    opened at all: [open] raises [e] in both modes (a directory, a path
    under a directory that does not exist, a file without any permission).
    [Protected content e] can be opened for reading only: reading gives
    [content], which is [None] when there is no file, and [open(path, "w")]
    raises [e] (a read-only file, a path in a directory in which no file can
    be created).  A path that the map does not hold has no file, and one can
    be created there. *)
Inductive node :=
| Regular (text : string)
| Unavailable (e : os_error)
| Protected (content : option string) (e : os_error).

Record world := World {
  fs : gmap string node;
  log : list log_record
}.

Definition logging (l : level) (m : string) (a : list log_arg) (w : world) : world :=
  World (fs w) (log w ++ [LogRecord l m a]).

Definition set_fs (f : gmap string node) (w : world) : world :=
  World f (log w).

(** [open(path, "r")] followed by reading the whole file. *)
Definition read_file (f : gmap string node) (path : string) : os_error + string :=
  match f !! path with
  | None | Some (Protected None _) => inl FileNotFoundError
  | Some (Unavailable e) => inl e
  | Some (Regular text) | Some (Protected (Some text) _) => inr text
  end.

(** [open(path, "w")] followed by writing [text]: creates or replaces a
    regular file, or raises and leaves the files as they are. *)
Definition write_file (f : gmap string node) (path text : string)
  : os_error + gmap string node :=
  match f !! path with
  | Some (Unavailable e) | Some (Protected _ e) => inl e
  | None | Some (Regular _) => inr (<[path := Regular text]> f)
  end.

(** ** The class *)

Record inventory := Inventory {
  stock_data : pyval;
  file_path : string
}.

Definition set_stock (v : pyval) (self : inventory) : inventory :=
  Inventory v (file_path self).

(** A call returns (with the instance and the world as it leaves them) or
    raises. *)
Inductive outcome :=
| Returned (self : inventory) (w : world)
| Raised (e : exn) (self : inventory) (w : world).

Inductive result (A : Type) :=
| Ok (a : A)
| Err (e : exn).
Arguments Ok {A} a.
Arguments Err {A} e.

(** [add_item]: the two guards, then
    [self.stock_data[item] = self.stock_data.get(item, 0) + qty]. *)
Definition add_item (self : inventory) (w : world) (item qty : pyval) : outcome :=
  match item, int_value qty with
  | PStr name, Some n =>
      if bool_decide (n < 0) then
        Returned self (logging WARNING "Cannot add negative quantity: %d" [LVal qty] w)
      else
        match stock_data self with
        | PDict d =>
            match plus_int (default (PInt 0) (d !! name)) n with
            | Some v =>
                Returned (set_stock (PDict (<[name := v]> d)) self)
                         (logging INFO "Added %d of %s" [LVal qty; LVal item] w)
            | None => Raised TypeError self w
            end
        | _ => Raised AttributeError self w
        end
  | _, _ =>
      Returned self (logging WARNING "Invalid item name or quantity type." [] w)
  end.

(** [remove_item]: the three guards, then [self.stock_data[item] -= qty]
    and the deletion of an entry that is [<= 0]. *)
Definition remove_item (self : inventory) (w : world) (item qty : pyval) : outcome :=
  match item, int_value qty with
  | PStr name, Some n =>
      match contains (stock_data self) name with
      | None => Raised TypeError self w
      | Some false =>
          Returned self
            (logging WARNING "Tried to remove non-existent item: %s" [LVal item] w)
      | Some true =>
          if bool_decide (n < 0) then
            Returned self
              (logging WARNING "Cannot remove negative quantity: %d" [LVal qty] w)
          else
            match stock_data self with
            | PDict d =>
                match d !! name ≫= (λ v, minus_int v n) with
                | Some v' =>
                    let d' := <[name := v']> d in
                    match le_int v' 0 with
                    | Some true =>
                        Returned (set_stock (PDict (delete name d')) self)
                          (logging INFO "Removed %s completely from stock." [LVal item] w)
                    | Some false =>
                        Returned (set_stock (PDict d') self)
                          (logging INFO "Removed %d of %s" [LVal qty; LVal item] w)
                    | None => Raised TypeError (set_stock (PDict d') self) w
                    end
                | None => Raised TypeError self w
                end
            | _ => Raised TypeError self w
            end
      end
  | _, _ =>
      Returned self (logging WARNING "Invalid item name or quantity type." [] w)
  end.

(** [get_qty]: [self.stock_data.get(item, 0)]. *)
Definition get_qty (self : inventory) (item : string) : result pyval :=
  match stock_data self with
  | PDict d => Ok (default (PInt 0) (d !! item))
  | _ => Err AttributeError
  end.

(** The comprehension of [check_low_items] over the items of the dict. *)
Fixpoint low_items (items : list (string * pyval)) (threshold : Z)
  : result (list string) :=
  match items with
  | [] => Ok []
  | (item, qty) :: rest =>
      match lt_int qty threshold with
      | None => Err TypeError
      | Some b =>
          match low_items rest threshold with
          | Ok names => Ok (if b then item :: names else names)
          | Err e => Err e
          end
      end
  end.

(** Python iterates a dict in insertion order; [map_to_list] lists the
    entries in an order of its own, so the model fixes which items are in
    the result, not their order. *)
Definition check_low_items (self : inventory) (threshold : Z) : result (list string) :=
  match stock_data self with
  | PDict d => low_items (map_to_list d) threshold
  | _ => Err AttributeError
  end.

(** The default of the parameter [threshold]. *)
Definition default_threshold : Z := 5.

(** What [json.load] does on an open file: it returns the decoded value,
    raises [JSONDecodeError] on a text that is no JSON document, or raises
    another exception, told by its cause. *)
Inductive decode_fault :=
| NotUTF8
| TooManyDigits
| TooDeep.

Inductive decoded :=
| Decoded (v : pyval)
| JSONDecodeError
| DecodeRaises (c : decode_fault).

(** The exception of each cause: the bytes of the file are not UTF-8; an
    integer literal has more digits than the interpreter converts (4300
    unless configured otherwise); the document is nested deeper than the
    recursion limit allows. *)
Definition fault_exn (c : decode_fault) : exn :=
  match c with
  | NotUTF8 => UnicodeDecodeError
  | TooManyDigits => ValueError
  | TooDeep => RecursionError
  end.

Section Persistence.

(** The two functions of Python's [json] module that the class calls:
    [json_dump v] is the text that [json.dump(v, file, indent=4)] writes,
    [json_load text] is what [json.load] does on a file that holds the
    bytes [text]. *)
Variable json_dump : pyval → string.
Variable json_load : string → decoded.

(** [save_data]: any [OSError] is logged and swallowed. *)
Definition save_data (self : inventory) (w : world) : outcome :=
  match write_file (fs w) (file_path self) (json_dump (stock_data self)) with
  | inr f =>
      Returned self (logging INFO "Inventory data saved successfully." [] (set_fs f w))
  | inl e =>
      Returned self (logging ERROR "Error saving inventory data: %s" [LExn e] w)
  end.

(** [load_data]: only [FileNotFoundError] and [JSONDecodeError] are
    caught; any other exception of [open] or [json.load] leaves the method
    before [stock_data] is assigned. *)
Definition load_data (self : inventory) (w : world) : outcome :=
  match read_file (fs w) (file_path self) with
  | inr text =>
      match json_load text with
      | Decoded v =>
          Returned (set_stock v self)
                   (logging INFO "Inventory data loaded successfully." [] w)
      | JSONDecodeError =>
          Returned (set_stock (PDict ∅) self)
                   (logging ERROR "Error decoding JSON file. Starting fresh." [] w)
      | DecodeRaises c => Raised (fault_exn c) self w
      end
  | inl FileNotFoundError =>
      Returned (set_stock (PDict ∅) self)
               (logging WARNING "File %s not found. Starting fresh."
                        [LVal (PStr (file_path self))] w)
  | inl e => Raised (OSError e) self w
  end.

(** [__init__]: an empty dict, the path, then [load_data]. *)
Definition init (path : string) (w : world) : outcome :=
  load_data (Inventory (PDict ∅) path) w.

End Persistence.

(** ** Sequences of mutations *)

Inductive call :=
| Add (item qty : pyval)
| Remove (item qty : pyval).

Definition perform (c : call) (self : inventory) (w : world) : outcome :=
  match c with
  | Add item qty => add_item self w item qty
  | Remove item qty => remove_item self w item qty
  end.

(** The calls one after the other; an exception ends the sequence. *)
Fixpoint run (cs : list call) (self : inventory) (w : world) : outcome :=
  match cs with
  | [] => Returned self w
  | c :: rest =>
      match perform c self w with
      | Returned self' w' => run rest self' w'
      | Raised e self' w' => Raised e self' w'
      end
  end.

(** The stock is a dict whose values are integers that satisfy [P]. *)
Definition quantities (P : Z → Prop) (self : inventory) : Prop :=
  ∃ d, stock_data self = PDict d ∧
       map_Forall (λ _ v, ∃ n, v = PInt n ∧ P n) d.

Definition stock_positive : inventory → Prop := quantities (λ n, 0 < n).
Definition stock_nonneg : inventory → Prop := quantities (λ n, 0 ≤ n).

(** An [add_item] call whose quantity is not the integer 0. *)
Definition nonzero_add (c : call) : Prop :=
  match c with
  | Add _ qty => int_value qty ≠ Some 0
  | Remove _ _ => True
  end.

(** The stock is a dict without the key [name]. *)
Definition absent (name : string) (self : inventory) : Prop :=
  ∃ d, stock_data self = PDict d ∧ d !! name = None.

(** The last record of the log says that [save_data] wrote the file. *)
Definition save_succeeded (w : world) : Prop :=
  last (log w) = Some (LogRecord INFO "Inventory data saved successfully." []).

(** The call adds to the item [name]. *)
Definition adds_to (name : string) (c : call) : Prop :=
  match c with
  | Add item _ => item = PStr name
  | Remove _ _ => False
  end.

(** ** The report and the demonstration *)



(** The order of [sorted] on the items of a dict: tuples compare by their
    first component, the key, when the keys differ, and the keys of a dict
    differ; strings compare character by character. *)
Definition item_le (a b : string * pyval) : Prop := String.le a.1 b.1.

#[global] Instance item_le_dec : RelDecision item_le.
Proof. intros a b. unfold item_le. apply _. Defined.







Section Demonstration.

Variable json_dump : pyval → string.
Variable json_load : string → decoded.


End Demonstration.

(** ** Reading an outcome *)

Definition self_of (o : outcome) : inventory :=
  match o with Returned self _ | Raised _ self _ => self end.

Definition world_of (o : outcome) : world :=
  match o with Returned _ w | Raised _ _ w => w end.

Definition raised (o : outcome) : option exn :=
  match o with Returned _ _ => None | Raised e _ _ => Some e end.

(** What a call adds to, and takes from, the item [name] when it is
    accepted: a quantity that is no integer or is negative counts for
    nothing. *)
Definition amount (name : string) (item qty : pyval) : Z :=
  match item with
  | PStr key =>
      if bool_decide (key = name) then Z.max 0 (default 0 (int_value qty)) else 0
  | _ => 0
  end.

Definition gain (name : string) (c : call) : Z :=
  match c with Add item qty => amount name item qty | Remove _ _ => 0 end.

Definition loss (name : string) (c : call) : Z :=
  match c with Remove item qty => amount name item qty | Add _ _ => 0 end.

Fixpoint sum_over (f : call → Z) (cs : list call) : Z :=
  match cs with
  | [] => 0
  | c :: rest => f c + sum_over f rest
  end.

(** ** A reference codec

    A writer and a reader of JSON text for the values of [pyval], laid out
    as [json.dump] does with [indent=4] (a dict is written in the order of
    [map_to_list]).  Strings are strings of characters below 256.  The
    reader handles what the writer produces and the float-free documents
    whose escapes stay below 256; [dump] and [decode] stand for [json_dump]
    and [json_load] where the persistence methods are run on concrete
    files. *)

Module Json.

Definition quote : ascii := "034".
Definition backslash : ascii := "092".
Definition newline : ascii := "010".

(** *** Writing *)

Definition hex_digit (n : N) : ascii :=
  default "0"%char (String.get (N.to_nat n) "0123456789abcdef").

Definition escape (c : ascii) : string :=
  let n := N_of_ascii c in
  if bool_decide (c = quote) then String backslash (String quote "")
  else if bool_decide (c = backslash) then String backslash (String backslash "")
  else if bool_decide (n = 8%N) then String backslash "b"
  else if bool_decide (n = 9%N) then String backslash "t"
  else if bool_decide (n = 10%N) then String backslash "n"
  else if bool_decide (n = 12%N) then String backslash "f"
  else if bool_decide (n = 13%N) then String backslash "r"
  else if bool_decide (32 ≤ n ≤ 126)%N then String c ""
  else String backslash
         (String "u" (String "0" (String "0"
            (String (hex_digit (n / 16)) (String (hex_digit (n mod 16)) ""))))).

Fixpoint escape_all (s : string) : string :=
  match s with
  | "" => ""
  | String c r => escape c +:+ escape_all r
  end.

Definition write_string (s : string) : string :=
  String quote (escape_all s +:+ String quote "").

Fixpoint spaces (n : nat) : string :=
  match n with O => "" | S k => String " " (spaces k) end.

(** The items of a container at nesting level [lvl], one per line. *)
Definition write_block (opening closing : string) (lvl : nat) (items : list string)
  : string :=
  match items with
  | [] => opening +:+ closing
  | _ =>
      let sep := String "," (String newline (spaces (4 * S lvl))) in
      opening +:+ String newline (spaces (4 * S lvl)) +:+
      String.concat sep items +:+
      String newline (spaces (4 * lvl)) +:+ closing
  end.

Fixpoint write (lvl : nat) (v : pyval) : string :=
  match v with
  | PNone => "null"
  | PBool true => "true"
  | PBool false => "false"
  | PInt n => pretty n
  | PStr s => write_string s
  | PList l => write_block "[" "]" lvl (map (write (S lvl)) l)
  | PDict d =>
      write_block "{" "}" lvl
        ((λ kv, write_string kv.1 +:+ ": " +:+ kv.2) <$>
           map_to_list (write (S lvl) <$> d))
  end.

Definition dump (v : pyval) : string := write 0 v.

(** *** Reading *)

Definition is_space (c : ascii) : bool :=
  bool_decide (N_of_ascii c ∈ [32; 9; 10; 13]%N).

Fixpoint skip_spaces (s : string) : string :=
  match s with
  | String c r => if is_space c then skip_spaces r else s
  | "" => ""
  end.

Definition digit_value (c : ascii) : option Z :=
  let n := Z.of_N (N_of_ascii c) in
  if bool_decide (48 ≤ n ≤ 57) then Some (n - 48) else None.

Definition hex_value (c : ascii) : option N :=
  let n := N_of_ascii c in
  if bool_decide (48 ≤ n ≤ 57)%N then Some (n - 48)%N
  else if bool_decide (97 ≤ n ≤ 102)%N then Some (n - 87)%N
  else if bool_decide (65 ≤ n ≤ 70)%N then Some (n - 55)%N
  else None.

(** The body of a string literal, after its opening quote. *)
Fixpoint read_string (s : string) : option (string * string) :=
  match s with
  | "" => None
  | String c r =>
      if bool_decide (c = quote) then Some ("", r)
      else if bool_decide (c = backslash) then
        match r with
        | String e r' =>
            let plain (c' : ascii) :=
              '(body, rest) ← read_string r'; Some (String c' body, rest) in
            if bool_decide (e = quote) then plain quote
            else if bool_decide (e = backslash) then plain backslash
            else if bool_decide (e = "/"%char) then plain "/"%char
            else if bool_decide (e = "b"%char) then plain "008"%char
            else if bool_decide (e = "t"%char) then plain "009"%char
            else if bool_decide (e = "n"%char) then plain "010"%char
            else if bool_decide (e = "f"%char) then plain "012"%char
            else if bool_decide (e = "r"%char) then plain "013"%char
            else if bool_decide (e = "u"%char) then
              match r' with
              | String h1 (String h2 (String h3 (String h4 r''))) =>
                  a ← hex_value h1; b ← hex_value h2;
                  c ← hex_value h3; d ← hex_value h4;
                  let code := (((a * 16 + b) * 16 + c) * 16 + d)%N in
                  if bool_decide (code < 256)%N then
                    '(body, rest) ← read_string r'';
                    Some (String (ascii_of_N code) body, rest)
                  else None
              | _ => None
              end
            else None
        | "" => None
        end
      else if bool_decide (N_of_ascii c < 32)%N then None
      else '(body, rest) ← read_string r; Some (String c body, rest)
  end.

Fixpoint read_digits (acc : Z) (s : string) : Z * string :=
  match s with
  | String c r =>
      match digit_value c with
      | Some d => read_digits (10 * acc + d) r
      | None => (acc, s)
      end
  | "" => (acc, "")
  end.

(** An integer literal without sign; a fraction or an exponent after it
    makes a float, which [pyval] does not have. *)
Definition read_natural (s : string) : option (Z * string) :=
  match s with
  | String c r =>
      d ← digit_value c;
      let '(n, rest) := if bool_decide (d = 0) then (0, r) else read_digits d r in
      match rest with
      | String c' _ =>
          if bool_decide (c' ∈ ["."; "e"; "E"]%char) then None else Some (n, rest)
      | "" => Some (n, rest)
      end
  | "" => None
  end.

Definition read_word (word : string) (v : pyval) (s : string)
  : option (pyval * string) :=
  if String.prefix word s
  then Some (v, String.substring (String.length word)
                  (String.length s - String.length word) s)
  else None.

(** The elements of an array after the first bracket; [fuel] bounds their
    number. *)
Fixpoint read_elements (value : string → option (pyval * string))
    (fuel : nat) (acc : list pyval) (s : string) : option (pyval * string) :=
  match fuel with
  | O => None
  | S fuel' =>
      '(v, rest) ← value s;
      match skip_spaces rest with
      | String "," rest' => read_elements value fuel' (v :: acc) rest'
      | String "]" rest' => Some (PList (rev (v :: acc)), rest')
      | _ => None
      end
  end.

Fixpoint read_members (value : string → option (pyval * string))
    (fuel : nat) (acc : gmap string pyval) (s : string) : option (pyval * string) :=
  match fuel with
  | O => None
  | S fuel' =>
      match skip_spaces s with
      | String c rest =>
          if bool_decide (c = quote) then
            '(key, rest1) ← read_string rest;
            match skip_spaces rest1 with
            | String ":" rest2 =>
                '(v, rest3) ← value rest2;
                match skip_spaces rest3 with
                | String "," rest4 => read_members value fuel' (<[key := v]> acc) rest4
                | String "}" rest4 => Some (PDict (<[key := v]> acc), rest4)
                | _ => None
                end
            | _ => None
            end
          else None
      | "" => None
      end
  end.

Fixpoint read_value (fuel : nat) (s : string) : option (pyval * string) :=
  match fuel with
  | O => None
  | S fuel' =>
      match skip_spaces s with
      | String c rest =>
          if bool_decide (c = quote) then
            '(body, rest') ← read_string rest; Some (PStr body, rest')
          else if bool_decide (c = "["%char) then
            match skip_spaces rest with
            | String "]" rest' => Some (PList [], rest')
            | _ => read_elements (read_value fuel') fuel' [] rest
            end
          else if bool_decide (c = "{"%char) then
            match skip_spaces rest with
            | String "}" rest' => Some (PDict ∅, rest')
            | _ => read_members (read_value fuel') fuel' ∅ rest
            end
          else if bool_decide (c = "-"%char) then
            '(n, rest') ← read_natural rest; Some (PInt (- n), rest')
          else if bool_decide (c = "t"%char) then read_word "true" (PBool true) (String c rest)
          else if bool_decide (c = "f"%char) then read_word "false" (PBool false) (String c rest)
          else if bool_decide (c = "n"%char) then read_word "null" PNone (String c rest)
          else '(n, rest') ← read_natural (String c rest); Some (PInt n, rest')
      | "" => None
      end
  end.

(** A document is one value with nothing but spaces after it. *)
Definition load (text : string) : option pyval :=
  '(v, rest) ← read_value (S (String.length text)) text;
  match skip_spaces rest with
  | "" => Some v
  | _ => None
  end.

(** The reader as a decoder: it has no limit on digits or on nesting and
    takes every byte for a character, so a text it cannot read is a
    [JSONDecodeError]. *)
Definition decode (text : string) : decoded :=
  match load text with
  | Some v => Decoded v
  | None => JSONDecodeError
  end.

End Json.

(** *** The layout of a dict of integers

    Names for the pieces of the text that [Json.dump] writes for a dict of
    integers; the facts about the reader are stated with them. *)

(** What may follow an integer literal: nothing, or a character that is
    neither a digit nor the start of a fraction or an exponent. *)
Definition ends_number (rest : string) : Prop :=
  match rest with
  | "" => True
  | String c _ => Json.digit_value c = None ∧ c ∉ ["."; "e"; "E"]%char
  end.

(** The text of one member and of the members of a block at level 0, as
    [Json.write_block] lays them out, followed by [rest]. *)
Definition member_text (kn : string * Z) : string :=
  Json.write_string kn.1 +:+ ": " +:+ pretty kn.2.

Fixpoint members_text (members : list (string * Z)) (rest : string) : string :=
  match members with
  | [] => rest
  | kn :: later =>
      String Json.newline (Json.spaces 4) +:+ member_text kn +:+
      match later with
      | [] => String Json.newline (String "}" rest)
      | _ => String "," (members_text later rest)
      end
  end.

Definition insert_member (m : gmap string pyval) (kn : string * Z) : gmap string pyval :=
  <[kn.1 := PInt kn.2]> m.

(** ** The two mutations on a dict

    What [add_item] does on a dict whose entry for the item is an integer
    or is missing. *)
Lemma add_item_dict d path w name qty n q :
  int_value qty = Some n →
  default (PInt 0) (d !! name) = PInt q →
  add_item (Inventory (PDict d) path) w (PStr name) qty =
    if bool_decide (n < 0) then
      Returned (Inventory (PDict d) path)
        (logging WARNING "Cannot add negative quantity: %d" [LVal qty] w)
    else
      Returned (Inventory (PDict (<[name := PInt (q + n)]> d)) path)
        (logging INFO "Added %d of %s" [LVal qty; LVal (PStr name)] w).
Proof.
  intros Hn Hq. unfold add_item. rewrite Hn. case_bool_decide; [done|].
  simpl. by rewrite Hq.
Qed.

(** What [remove_item] does on a dict whose entry for the item is an
    integer. *)
Lemma remove_item_dict d path w name qty n q :
  int_value qty = Some n →
  d !! name = Some (PInt q) →
  remove_item (Inventory (PDict d) path) w (PStr name) qty =
    if bool_decide (n < 0) then
      Returned (Inventory (PDict d) path)
        (logging WARNING "Cannot remove negative quantity: %d" [LVal qty] w)
    else if bool_decide (q - n ≤ 0) then
      Returned (Inventory (PDict (delete name d)) path)
        (logging INFO "Removed %s completely from stock." [LVal (PStr name)] w)
    else
      Returned (Inventory (PDict (<[name := PInt (q - n)]> d)) path)
        (logging INFO "Removed %d of %s" [LVal qty; LVal (PStr name)] w).
Proof.
  intros Hn Hq. unfold remove_item. rewrite Hn. simpl. rewrite Hq.
  rewrite bool_decide_eq_true_2 by eauto.
  case_bool_decide; [done|]. simpl.
  case_bool_decide; [|done].
  by rewrite delete_insert_eq.
Qed.

Lemma remove_item_absent d path w name qty n :
  int_value qty = Some n →
  d !! name = None →
  remove_item (Inventory (PDict d) path) w (PStr name) qty =
    Returned (Inventory (PDict d) path)
      (logging WARNING "Tried to remove non-existent item: %s" [LVal (PStr name)] w).
Proof.
  intros Hn Hq. unfold remove_item. rewrite Hn. simpl. rewrite Hq.
  rewrite bool_decide_eq_false_2; [done|]. by intros [? ?].
Qed.

(** ** The invariant of the stock *)

Lemma quantities_lookup P d path name :
  quantities P (Inventory (PDict d) path) →
  ∃ q, default (PInt 0) (d !! name) = PInt q ∧
       (d !! name = None ∧ q = 0 ∨ d !! name = Some (PInt q) ∧ P q).
Proof.
  intros (d' & [= <-] & Hd). destruct (d !! name) as [v|] eqn:E.
  - destruct (Hd _ _ E) as (q & -> & Hq). exists q. simpl. eauto.
  - exists 0. eauto.
Qed.

Lemma quantities_insert (P : Z → Prop) d path name q :
  quantities P (Inventory (PDict d) path) → P q →
  quantities P (Inventory (PDict (<[name := PInt q]> d)) path).
Proof.
  intros (d' & [= <-] & Hd) Hq. eexists; split; [done|].
  apply map_Forall_insert_2; eauto.
Qed.

Lemma quantities_delete (P : Z → Prop) d path name :
  quantities P (Inventory (PDict d) path) →
  quantities P (Inventory (PDict (delete name d)) path).
Proof.
  intros (d' & [= <-] & Hd). eexists; split; [done|].
  by apply map_Forall_delete.
Qed.

(** One call on a stock of integers [>= 0]: it returns, the stock is again
    one of integers [>= 0], and a stock of integers [> 0] stays so unless
    the call adds the quantity 0. *)
Lemma perform_quantities c self w :
  stock_nonneg self →
  ∃ self' w',
    perform c self w = Returned self' w' ∧
    file_path self' = file_path self ∧
    stock_nonneg self' ∧
    (stock_positive self → nonzero_add c → stock_positive self').
Proof.
  intros Hnn.
  assert (∀ (Q : Prop) l m a, ∃ self' w',
    Returned self (logging l m a w) = Returned self' w' ∧
    file_path self' = file_path self ∧ stock_nonneg self' ∧
    (stock_positive self → Q → stock_positive self')) as Hsame
    by (intros; by eauto 10).
  destruct c as [item qty|item qty]; simpl;
    (destruct item as [| | |name| |];
     try (unfold add_item, remove_item; apply Hsame));
    (destruct (int_value qty) as [n|] eqn:Hn;
     [|unfold add_item, remove_item; rewrite Hn; apply Hsame]); clear Hsame;
    destruct self as [s path]; pose proof Hnn as (d & Hs & _);
    simpl in Hs; subst s.
  - destruct (quantities_lookup _ _ _ name Hnn) as (q & Hq & Hcase).
    rewrite (add_item_dict _ _ _ _ _ _ _ Hn Hq). case_bool_decide.
    + by eauto 10.
    + do 2 eexists. split; [done|]. split; [done|]. split.
      * apply quantities_insert; [done|]. simpl. destruct Hcase as [[_ ->]|[_ ?]]; lia.
      * intros Hpos Hnz. simpl in Hnz. apply quantities_insert; [done|]. simpl.
        assert (n ≠ 0) by congruence. destruct Hcase as [[_ ->]|[_ ?]]; lia.
  - destruct (quantities_lookup _ _ _ name Hnn) as (q & Hq & [[Hcase _]|[Hcase Hq0]]).
    + rewrite (remove_item_absent _ _ _ _ _ _ Hn Hcase). by eauto 10.
    + rewrite (remove_item_dict _ _ _ _ _ _ _ Hn Hcase).
      repeat case_bool_decide; do 2 eexists; (split; [done|]); (split; [done|]);
        try (by eauto); split.
      * by apply quantities_delete.
      * intros. by apply quantities_delete.
      * apply quantities_insert; [done|]. simpl. lia.
      * intros. apply quantities_insert; [done|]. simpl. lia.
Qed.

Lemma run_quantities cs self w :
  stock_nonneg self →
  ∃ self' w',
    run cs self w = Returned self' w' ∧
    file_path self' = file_path self ∧
    stock_nonneg self' ∧
    (stock_positive self → Forall nonzero_add cs → stock_positive self').
Proof.
  revert self w. induction cs as [|c cs IH]; intros self w Hnn; simpl.
  - by eauto 10.
  - destruct (perform_quantities c self w Hnn) as (s1 & w1 & -> & Hp1 & Hnn1 & Hpos1).
    destruct (IH s1 w1 Hnn1) as (s2 & w2 & -> & Hp2 & Hnn2 & Hpos2).
    exists s2, w2. split; [done|]. split; [congruence|]. split; [done|].
    intros Hpos [Hc Hcs]%Forall_cons. auto.
Qed.

Lemma empty_stock_positive path : stock_positive (Inventory (PDict ∅) path).
Proof. eexists; split; [done|]. apply map_Forall_empty. Qed.

Lemma empty_stock_nonneg path : stock_nonneg (Inventory (PDict ∅) path).
Proof. eexists; split; [done|]. apply map_Forall_empty. Qed.

(** ** The claims about the stock map *)

(** C1, as the specification states it, fails: adding the quantity 0 of an
    item that is not in stock passes the guard [qty < 0] and creates an
    entry whose quantity is 0. *)
Lemma add_zero_creates_zero_entry :
  run [Add (PStr "x") (PInt 0)] (Inventory (PDict ∅) "inventory.json") (World ∅ []) =
    Returned (Inventory (PDict {["x" := PInt 0]}) "inventory.json")
      (World ∅ [LogRecord INFO "Added %d of %s" [LVal (PInt 0); LVal (PStr "x")]]) ∧
  ¬ stock_positive (Inventory (PDict {["x" := PInt 0]}) "inventory.json").
Proof.
  split; [reflexivity|].
  intros (d & [= <-] & Hd).
  destruct (Hd "x" (PInt 0)) as (n & [= <-] & Hn); [by apply lookup_singleton_eq|lia].
Qed.

(** C1 (amended): every sequence of [add_item] and [remove_item] calls on an
    empty stock runs to its end without an exception, and in the state it
    reaches every item of the stock has an integer quantity that is not
    negative; when no [add_item] call of the sequence has the quantity 0,
    every item of the stock has a strictly positive quantity. *)
Theorem stock_quantities_after_calls (cs : list call) (path : string) (w : world) :
  ∃ self' w',
    run cs (Inventory (PDict ∅) path) w = Returned self' w' ∧
    stock_nonneg self' ∧
    (Forall nonzero_add cs → stock_positive self').
Proof.
  destruct (run_quantities cs (Inventory (PDict ∅) path) w (empty_stock_nonneg path))
    as (s & w' & Hrun & _ & Hnn & Hpos).
  exists s, w'. split; [done|]. split; [done|].
  intros Hcs. apply Hpos; [apply empty_stock_positive|done].
Qed.

(** C1, on a run of calls none of which adds 0: the demonstration of [main]
    leaves a stock of strictly positive quantities. *)
Lemma stock_quantities_after_main :
  ∃ self' w',
    run [Add (PStr "apple") (PInt 10); Add (PStr "banana") (PInt 2);
         Add (PStr "orange") (PInt 6); Remove (PStr "apple") (PInt 3);
         Remove (PStr "orange") (PInt 10)]
        (Inventory (PDict ∅) "inventory.json") (World ∅ []) = Returned self' w' ∧
    stock_nonneg self' ∧ stock_positive self'.
Proof.
  destruct (stock_quantities_after_calls
    [Add (PStr "apple") (PInt 10); Add (PStr "banana") (PInt 2);
     Add (PStr "orange") (PInt 6); Remove (PStr "apple") (PInt 3);
     Remove (PStr "orange") (PInt 10)] "inventory.json" (World ∅ []))
    as (s & w & Hrun & Hnn & Hpos).
  exists s, w. split; [exact Hrun|]. split; [exact Hnn|].
  apply Hpos. repeat constructor; simpl; discriminate.
Defined.

(** C2: [add_item] with a text item and an integer quantity.  A negative
    quantity leaves the instance as it is, whatever the stock.  Otherwise,
    on a stock where the quantity of the item is the integer [q] (0 when
    the item is missing), the entry of the item becomes [q + qty] and every
    other entry is as before.  In particular, where "x" is missing, adding
    10 makes its quantity 10 and adding 5 more makes it 15. *)
Theorem add_item_spec :
  (∀ self w name qty,
     qty < 0 →
     ∃ w', add_item self w (PStr name) (PInt qty) = Returned self w') ∧
  (∀ self w name qty q,
     get_qty self name = Ok (PInt q) → 0 ≤ qty →
     ∃ self' w' d d',
       add_item self w (PStr name) (PInt qty) = Returned self' w' ∧
       get_qty self' name = Ok (PInt (q + qty)) ∧
       stock_data self = PDict d ∧ stock_data self' = PDict d' ∧
       d' !! name = Some (PInt (q + qty)) ∧
       ∀ other, other ≠ name → d' !! other = d !! other) ∧
  (∀ d path w,
     d !! "x" = None →
     ∃ s1 w1 s2 w2,
       add_item (Inventory (PDict d) path) w (PStr "x") (PInt 10) = Returned s1 w1 ∧
       get_qty s1 "x" = Ok (PInt 10) ∧
       add_item s1 w1 (PStr "x") (PInt 5) = Returned s2 w2 ∧
       get_qty s2 "x" = Ok (PInt 15)).
Proof.
  split; [|split].
  - intros self w name qty Hneg. unfold add_item. simpl.
    rewrite bool_decide_eq_true_2 by done. by eauto.
  - intros [s path] w name qty q Hq Hqty. unfold get_qty in Hq. simpl in Hq.
    destruct s as [| | | | |d]; try done. injection Hq as Hq.
    rewrite (add_item_dict d path w name (PInt qty) qty q eq_refl Hq).
    rewrite bool_decide_eq_false_2 by lia.
    exists (Inventory (PDict (<[name := PInt (q + qty)]> d)) path).
    eexists. exists d, (<[name := PInt (q + qty)]> d).
    split; [done|].
    split; [unfold get_qty; simpl; by rewrite lookup_insert_eq|].
    split; [done|]. split; [done|]. split; [apply lookup_insert_eq|].
    intros other Hne. by apply lookup_insert_ne.
  - intros d path w Hx.
    rewrite (add_item_dict d path w "x" (PInt 10) 10 0 eq_refl) by (by rewrite Hx).
    rewrite bool_decide_eq_false_2 by lia.
    do 4 eexists. split; [done|].
    split; [unfold get_qty; simpl; by rewrite lookup_insert_eq|].
    rewrite (add_item_dict _ path _ "x" (PInt 5) 5 10 eq_refl)
      by (by rewrite lookup_insert_eq).
    rewrite bool_decide_eq_false_2 by lia.
    split; [done|]. unfold get_qty; simpl. by rewrite lookup_insert_eq.
Qed.

(** C2 at a stock that holds 7 of "y": adding -1 of "a" changes nothing,
    adding 2 of "y" makes its quantity 9 and leaves "x" out, adding 10 and
    then 5 of "x" makes its quantity 10 and then 15. *)
Lemma add_item_spec_example :
  (∃ w', add_item (Inventory (PDict {["y" := PInt 7]}) "inventory.json") (World ∅ [])
           (PStr "a") (PInt (-1)) =
         Returned (Inventory (PDict {["y" := PInt 7]}) "inventory.json") w') ∧
  (∃ self' w',
     add_item (Inventory (PDict {["y" := PInt 7]}) "inventory.json") (World ∅ [])
       (PStr "y") (PInt 2) = Returned self' w' ∧
     get_qty self' "y" = Ok (PInt 9) ∧ get_qty self' "x" = Ok (PInt 0)) ∧
  (∃ s1 w1 s2 w2,
     add_item (Inventory (PDict {["y" := PInt 7]}) "inventory.json") (World ∅ [])
       (PStr "x") (PInt 10) = Returned s1 w1 ∧
     get_qty s1 "x" = Ok (PInt 10) ∧
     add_item s1 w1 (PStr "x") (PInt 5) = Returned s2 w2 ∧
     get_qty s2 "x" = Ok (PInt 15)).
Proof.
  destruct add_item_spec as (Hneg & Hgen & Hx). split; [|split].
  - apply Hneg. reflexivity.
  - destruct (Hgen (Inventory (PDict {["y" := PInt 7]}) "inventory.json") (World ∅ [])
                "y" 2 7) as (s & w' & d & d' & Hadd & Hq & Hd & Hd' & _ & Hother);
      [vm_compute; reflexivity|lia|].
    exists s, w'. split; [exact Hadd|]. split; [exact Hq|].
    unfold get_qty. rewrite Hd'. rewrite Hother by discriminate.
    simpl in Hd. injection Hd as <-. vm_compute. reflexivity.
  - apply Hx. reflexivity.
Defined.

(** C3: [remove_item] with a text item on a stock that is a dict.  When the
    item is missing, or when the quantity is a negative integer, the
    instance stays as it is.  Otherwise, with [q] the stored quantity and
    [qty >= 0], the entry is deleted when [q - qty <= 0] and becomes
    [q - qty] when not.  In particular, removing 20 of "x" from a stored
    quantity of 15 deletes "x", and its quantity is 0 afterwards. *)
Theorem remove_item_spec :
  (∀ d path w name qty,
     d !! name = None →
     ∃ w', remove_item (Inventory (PDict d) path) w (PStr name) qty =
           Returned (Inventory (PDict d) path) w') ∧
  (∀ d path w name qty,
     qty < 0 →
     ∃ w', remove_item (Inventory (PDict d) path) w (PStr name) (PInt qty) =
           Returned (Inventory (PDict d) path) w') ∧
  (∀ d path w name qty q,
     d !! name = Some (PInt q) → 0 ≤ qty →
     ∃ w', remove_item (Inventory (PDict d) path) w (PStr name) (PInt qty) =
           Returned
             (Inventory (PDict (if bool_decide (q - qty ≤ 0) then delete name d
                                else <[name := PInt (q - qty)]> d)) path) w') ∧
  (∀ d path w,
     d !! "x" = Some (PInt 15) →
     ∃ self' w',
       remove_item (Inventory (PDict d) path) w (PStr "x") (PInt 20) = Returned self' w' ∧
       stock_data self' = PDict (delete "x" d) ∧
       get_qty self' "x" = Ok (PInt 0)).
Proof.
  repeat split.
  - intros d path w name qty Hd. destruct (int_value qty) as [n|] eqn:Hn.
    + rewrite (remove_item_absent d path w name qty n Hn Hd). by eauto.
    + unfold remove_item. rewrite Hn. by eauto.
  - intros d path w name qty Hneg. destruct (d !! name) as [v|] eqn:Hd.
    + unfold remove_item. simpl. rewrite Hd.
      rewrite bool_decide_eq_true_2 by eauto.
      rewrite bool_decide_eq_true_2 by done. by eauto.
    + rewrite (remove_item_absent d path w name (PInt qty) qty eq_refl Hd). by eauto.
  - intros d path w name qty q Hd Hqty.
    rewrite (remove_item_dict d path w name (PInt qty) qty q eq_refl Hd).
    rewrite bool_decide_eq_false_2 by lia.
    case_bool_decide; by eauto.
  - intros d path w Hd.
    rewrite (remove_item_dict d path w "x" (PInt 20) 20 15 eq_refl Hd).
    rewrite bool_decide_eq_false_2 by lia.
    rewrite bool_decide_eq_true_2 by lia.
    do 2 eexists. split; [done|]. split; [done|].
    unfold get_qty. simpl. by rewrite lookup_delete_eq.
Qed.

(** C3 at the stock that holds 15 of "x" and 4 of "y": removing from the
    missing "b" or removing -1 changes nothing, removing 20 of "x" deletes
    it, removing 1 of "y" leaves 3. *)
Lemma remove_item_spec_example :
  (∃ w', remove_item (Inventory (PDict {["x" := PInt 15; "y" := PInt 4]}) "inventory.json")
           (World ∅ []) (PStr "b") (PInt (-1)) =
         Returned (Inventory (PDict {["x" := PInt 15; "y" := PInt 4]}) "inventory.json") w') ∧
  (∃ w', remove_item (Inventory (PDict {["x" := PInt 15; "y" := PInt 4]}) "inventory.json")
           (World ∅ []) (PStr "x") (PInt (-1)) =
         Returned (Inventory (PDict {["x" := PInt 15; "y" := PInt 4]}) "inventory.json") w') ∧
  (∃ w', remove_item (Inventory (PDict {["x" := PInt 15; "y" := PInt 4]}) "inventory.json")
           (World ∅ []) (PStr "y") (PInt 1) =
         Returned (Inventory (PDict {["x" := PInt 15; "y" := PInt 3]}) "inventory.json") w') ∧
  (∃ self' w',
     remove_item (Inventory (PDict {["x" := PInt 15; "y" := PInt 4]}) "inventory.json")
       (World ∅ []) (PStr "x") (PInt 20) = Returned self' w' ∧
     stock_data self' = PDict {["y" := PInt 4]} ∧
     get_qty self' "x" = Ok (PInt 0)).
Proof.
  destruct remove_item_spec as (Habsent & Hneg & Hdec & Hx).
  split; [|split; [|split]].
  - apply Habsent. reflexivity.
  - apply Hneg. reflexivity.
  - destruct (Hdec {["x" := PInt 15; "y" := PInt 4]} "inventory.json" (World ∅ []) "y" 1 4)
      as [w' Hw]; [vm_compute; reflexivity|lia|].
    exists w'. rewrite Hw. vm_compute. reflexivity.
  - destruct (Hx {["x" := PInt 15; "y" := PInt 4]} "inventory.json" (World ∅ []))
      as (s & w' & Hrem & Hs & Hq); [vm_compute; reflexivity|].
    exists s, w'. split; [exact Hrem|]. split; [|exact Hq].
    rewrite Hs. vm_compute. reflexivity.
Defined.

(** ** The low-stock report *)

Lemma low_items_ints (items : list (string * pyval)) (threshold : Z) :
  (∀ item v, (item, v) ∈ items → ∃ q, v = PInt q) →
  ∃ names,
    low_items items threshold = Ok names ∧
    names `sublist_of` items.*1 ∧
    ∀ item, item ∈ names ↔ ∃ q, (item, PInt q) ∈ items ∧ q < threshold.
Proof.
  induction items as [|[k v] rest IH]; intros Hint; simpl.
  - exists []. split; [done|]. split; [done|].
    intros item. setoid_rewrite elem_of_nil. naive_solver.
  - destruct (Hint k v) as [q ->]; [apply elem_of_cons; by left|].
    destruct IH as (names & -> & Hsub & Hiff).
    { intros item v Hin. apply (Hint item v), elem_of_cons. by right. }
    simpl. case_bool_decide as Hlt.
    + exists (k :: names). split; [done|]. split; [by apply sublist_skip|].
      intros item. rewrite elem_of_cons, Hiff.
      setoid_rewrite elem_of_cons. naive_solver.
    + exists names. split; [done|]. split; [by apply sublist_cons|].
      intros item. rewrite Hiff.
      setoid_rewrite elem_of_cons. naive_solver.
Qed.

Lemma check_low_items_dict d path threshold :
  map_Forall (λ _ v, ∃ q, v = PInt q) d →
  ∃ names,
    check_low_items (Inventory (PDict d) path) threshold = Ok names ∧
    NoDup names ∧
    ∀ item, item ∈ names ↔ ∃ q, d !! item = Some (PInt q) ∧ q < threshold.
Proof.
  intros Hd. unfold check_low_items, stock_data.
  destruct (low_items_ints (map_to_list d) threshold) as (names & Hlow & Hsub & Hiff).
  { intros item v Hin%elem_of_map_to_list. eauto. }
  exists names. split; [exact Hlow|]. split.
  - exact (sublist_NoDup _ _ (NoDup_fst_map_to_list d) Hsub).
  - intros item. rewrite Hiff. by setoid_rewrite elem_of_map_to_list.
Qed.

(** C5: on a stock whose quantities are integers, [check_low_items] returns
    a list without repetition in which an item occurs exactly when it is in
    the stock with a quantity strictly below the threshold (the default
    threshold is [default_threshold]).  The method computes a list from the
    instance and assigns nothing, so the stock is as before. *)
Theorem check_low_items_spec (d : gmap string pyval) (path : string) (threshold : Z) :
  map_Forall (λ _ v, ∃ q, v = PInt q) d →
  ∃ names,
    check_low_items (Inventory (PDict d) path) threshold = Ok names ∧
    NoDup names ∧
    ∀ item, item ∈ names ↔ ∃ q, d !! item = Some (PInt q) ∧ q < threshold.
Proof. apply check_low_items_dict. Qed.

(** C5 at the default threshold on 3 of "apple" and 9 of "banana": "apple"
    is reported, "banana" is not. *)
Lemma check_low_items_spec_example :
  ∃ names,
    check_low_items (Inventory (PDict {["apple" := PInt 3; "banana" := PInt 9]})
                       "inventory.json") default_threshold = Ok names ∧
    "apple" ∈ names ∧ "banana" ∉ names.
Proof.
  destruct (check_low_items_spec {["apple" := PInt 3; "banana" := PInt 9]}
              "inventory.json" default_threshold) as (names & Hlow & _ & Hiff).
  - intros k v Hk.
    destruct (decide (k = "apple")) as [->|Ha]; [vm_compute in Hk; injection Hk as <-; eauto|].
    rewrite lookup_insert_ne in Hk by done.
    apply lookup_singleton_Some in Hk as [_ <-]. eauto.
  - exists names. split; [exact Hlow|]. split.
    + apply Hiff. exists 3. split; [vm_compute; reflexivity|reflexivity].
    + intros (q & Hq & Hlt)%Hiff. vm_compute in Hq. injection Hq as <-.
      vm_compute in Hlt. discriminate.
Defined.

(** The examples of the specification: 3 of "apple" is low stock, 13 is
    not. *)
Example low_stock_apple :
  ∃ s1 w1 s2 w2,
    add_item (Inventory (PDict ∅) "inventory.json") (World ∅ []) (PStr "apple") (PInt 3)
      = Returned s1 w1 ∧
    check_low_items s1 5 = Ok ["apple"] ∧
    add_item s1 w1 (PStr "apple") (PInt 10) = Returned s2 w2 ∧
    check_low_items s2 5 = Ok [].
Proof. do 4 eexists. repeat split; vm_compute; reflexivity. Qed.

(** ** Items that a removal deleted *)

(** A call that does not add to [name] leaves [name] out of the stock. *)
Lemma perform_absent c self w name self' w' :
  stock_nonneg self → absent name self → ¬ adds_to name c →
  perform c self w = Returned self' w' → absent name self'.
Proof.
  intros Hnn Habs Hc.
  destruct c as [item qty|item qty]; simpl;
    (destruct item as [| | |key| |];
     try (unfold add_item, remove_item; by intros [= <- _]));
    (destruct (int_value qty) as [n|] eqn:Hn;
     [|unfold add_item, remove_item; rewrite Hn; by intros [= <- _]]);
    destruct self as [s path]; destruct Habs as (d & Hs & Hd);
    simpl in Hs; subst s.
  - assert (key ≠ name) by (intros ->; by apply Hc).
    destruct (quantities_lookup _ _ _ key Hnn) as (q & Hq & _).
    rewrite (add_item_dict _ _ _ _ _ _ _ Hn Hq).
    case_bool_decide; intros [= <- _]; eexists; (split; [done|]); [done|].
    by rewrite lookup_insert_ne.
  - destruct (quantities_lookup _ _ _ key Hnn) as (q & Hq & [[Hk _]|[Hk _]]).
    + rewrite (remove_item_absent _ _ _ _ _ _ Hn Hk).
      intros [= <- _]. by eexists.
    + assert (key ≠ name) by (intros ->; congruence).
      rewrite (remove_item_dict _ _ _ _ _ _ _ Hn Hk).
      repeat case_bool_decide; intros [= <- _]; eexists; (split; [done|]); try done.
      * by rewrite lookup_delete_ne.
      * by rewrite lookup_insert_ne.
Qed.

Lemma run_absent cs self w name :
  stock_nonneg self → absent name self →
  Forall (λ c, ¬ adds_to name c) cs →
  ∃ self' w',
    run cs self w = Returned self' w' ∧
    file_path self' = file_path self ∧
    stock_nonneg self' ∧ absent name self'.
Proof.
  revert self w. induction cs as [|c cs IH]; intros self w Hnn Habs Hcs; simpl.
  - by eauto 10.
  - apply Forall_cons in Hcs as [Hc Hcs].
    destruct (perform_quantities c self w Hnn) as (s1 & w1 & Hp & Hpath & Hnn1 & _).
    rewrite Hp.
    destruct (IH s1 w1 Hnn1 (perform_absent _ _ _ _ _ _ Hnn Habs Hc Hp) Hcs)
      as (s2 & w2 & -> & Hpath2 & ? & ?).
    exists s2, w2. repeat split; try done. congruence.
Qed.

(** A removal that brings the quantity to 0 or below leaves the item out
    of the stock. *)
Lemma remove_item_drives_out self w name qty n q :
  stock_nonneg self →
  get_qty self name = Ok (PInt q) →
  int_value qty = Some n → 0 ≤ n → q - n ≤ 0 →
  ∃ self' w',
    remove_item self w (PStr name) qty = Returned self' w' ∧
    file_path self' = file_path self ∧
    stock_nonneg self' ∧ absent name self'.
Proof.
  intros Hnn Hq Hn Hn0 Hle. destruct self as [s path].
  pose proof Hnn as (d & Hs & _). simpl in Hs; subst s.
  destruct (quantities_lookup _ _ _ name Hnn) as (q' & Hq' & [[Hk _]|[Hk _]]).
  - rewrite (remove_item_absent _ _ _ _ _ _ Hn Hk).
    do 2 eexists. split; [done|]. split; [done|]. split; [done|]. by eexists.
  - unfold get_qty in Hq. simpl in Hq. rewrite Hk in Hq. injection Hq as <-.
    rewrite (remove_item_dict _ _ _ _ _ _ _ Hn Hk).
    rewrite bool_decide_eq_false_2 by lia. rewrite bool_decide_eq_true_2 by lia.
    do 2 eexists. split; [done|]. split; [done|].
    split; [by apply quantities_delete|].
    eexists. split; [done|]. apply lookup_delete_eq.
Qed.

Lemma stock_nonneg_get_qty self item :
  stock_nonneg self → ∃ q, get_qty self item = Ok (PInt q) ∧ 0 ≤ q.
Proof.
  destruct self as [s path]. intros Hnn. pose proof Hnn as (d & Hs & _).
  simpl in Hs; subst s.
  destruct (quantities_lookup _ _ _ item Hnn) as (q & Hq & Hcase).
  exists q. unfold get_qty. simpl. rewrite Hq. split; [done|].
  destruct Hcase as [[_ ->]|[_ ?]]; lia.
Qed.

(** What [save_data] leaves at the path of the instance. *)
Lemma save_data_file json_dump self w :
  ∃ w', save_data json_dump self w = Returned self w' ∧
        (((∀ text, fs w !! file_path self ≠ Some (Regular text)) ∧ fs w' = fs w) ∨
         fs w' = <[file_path self := Regular (json_dump (stock_data self))]> (fs w)).
Proof.
  unfold save_data, write_file.
  destruct (fs w !! file_path self) as [[text|e|content e]|] eqn:Hf; eexists;
    (split; [done|]); simpl; eauto.
Qed.

(** C4: on every state that a sequence of [add_item] and [remove_item]
    calls reaches from the empty stock, [get_qty] returns an integer that
    is not negative, for every item.  When a [remove_item] call brings the
    quantity of an item to 0 or below, then after that call and any later
    calls that do not add to the item: its quantity is 0, no
    [check_low_items] result contains it whatever the threshold, and
    [save_data] serializes a dict without it, so that a regular file at the
    path after the save holds the text of a dict without the item. *)
Theorem removed_item_stays_out :
  (∀ cs path w0,
     ∃ self w,
       run cs (Inventory (PDict ∅) path) w0 = Returned self w ∧
       ∀ item, ∃ q, get_qty self item = Ok (PInt q) ∧ 0 ≤ q) ∧
  (∀ cs path w0 self w name q qty n later,
     run cs (Inventory (PDict ∅) path) w0 = Returned self w →
     get_qty self name = Ok (PInt q) →
     int_value qty = Some n → 0 ≤ n → q - n ≤ 0 →
     Forall (λ c, ¬ adds_to name c) later →
     ∃ self' w',
       run (Remove (PStr name) qty :: later) self w = Returned self' w' ∧
       get_qty self' name = Ok (PInt 0) ∧
       (∀ threshold, ∃ names,
          check_low_items self' threshold = Ok names ∧ name ∉ names) ∧
       (∀ json_dump, ∃ d' w'',
          save_data json_dump self' w' = Returned self' w'' ∧
          stock_data self' = PDict d' ∧ d' !! name = None ∧
          ∀ text, fs w'' !! file_path self' = Some (Regular text) →
                  text = json_dump (PDict d'))).
Proof.
  split.
  - intros cs path w0.
    destruct (run_quantities cs _ w0 (empty_stock_nonneg path))
      as (self & w & Hrun & _ & Hnn & _).
    exists self, w. split; [done|]. intros item. by apply stock_nonneg_get_qty.
  - intros cs path w0 self w name q qty n later Hrun Hq Hn Hn0 Hle Hlater.
    destruct (run_quantities cs _ w0 (empty_stock_nonneg path))
      as (self0 & w0' & Hrun' & _ & Hnn & _).
    rewrite Hrun in Hrun'. injection Hrun' as <- <-.
    destruct (remove_item_drives_out self w name qty n q Hnn Hq Hn Hn0 Hle)
      as (s1 & w1 & Hrem & _ & Hnn1 & Habs1).
    destruct (run_absent later s1 w1 name Hnn1 Habs1 Hlater)
      as (s2 & w2 & Hrun2 & _ & Hnn2 & (d2 & Hs2 & Hd2)).
    exists s2, w2. cbn [run perform]. rewrite Hrem. split; [done|].
    destruct s2 as [s path2]. simpl in Hs2. subst s.
    split; [unfold get_qty; simpl; by rewrite Hd2|]. split.
    + intros threshold.
      destruct (check_low_items_dict d2 path2 threshold) as (names & Hlow & _ & Hiff).
      { destruct Hnn2 as (d & [= <-] & Hd). intros k v Hk.
        destruct (Hd k v Hk) as (m & ? & _). eauto. }
      exists names. split; [done|]. rewrite Hiff. intros (m & Hm & _). congruence.
    + intros json_dump.
      destruct (save_data_file json_dump (Inventory (PDict d2) path2) w2)
        as (w3 & Hsave & Hfile).
      exists d2, w3. split; [done|]. split; [done|]. split; [done|].
      simpl in *. intros text Htext.
      destruct Hfile as [[Hno Hfs]|Hfs]; rewrite Hfs in Htext.
      * by destruct (Hno text).
      * rewrite lookup_insert_eq in Htext. congruence.
Qed.

(** C4 on the demonstration of [main]: after 10 of "apple" and 6 of
    "orange" are added, removing 10 of "orange" takes it out of the stock,
    and it stays out while "banana" is added and "apple" is removed. *)
Lemma removed_item_stays_out_example :
  ∃ self w,
    run [Add (PStr "apple") (PInt 10); Add (PStr "orange") (PInt 6)]
        (Inventory (PDict ∅) "inventory.json") (World ∅ []) = Returned self w ∧
    ∃ self' w',
      run [Remove (PStr "orange") (PInt 10); Add (PStr "banana") (PInt 2);
           Remove (PStr "apple") (PInt 3)] self w = Returned self' w' ∧
      get_qty self' "orange" = Ok (PInt 0) ∧
      (∀ threshold, ∃ names,
         check_low_items self' threshold = Ok names ∧ "orange" ∉ names) ∧
      (∀ json_dump, ∃ d' w'',
         save_data json_dump self' w' = Returned self' w'' ∧
         stock_data self' = PDict d' ∧ d' !! "orange" = None ∧
         ∀ text, fs w'' !! file_path self' = Some (Regular text) →
                 text = json_dump (PDict d')).
Proof.
  do 2 eexists. split; [vm_compute; reflexivity|].
  destruct removed_item_stays_out as [_ Hout].
  eapply (Hout [Add (PStr "apple") (PInt 10); Add (PStr "orange") (PInt 6)]
            "inventory.json" (World ∅ []) _ _ "orange" 6 (PInt 10) 10).
  - vm_compute; reflexivity.
  - vm_compute; reflexivity.
  - reflexivity.
  - lia.
  - lia.
  - repeat constructor; simpl; [discriminate|tauto].
Defined.

(** ** Persistence *)

Section PersistenceFacts.

Variable json_dump : pyval → string.
Variable json_load : string → decoded.

Lemma last_logging l m a w : last (log (logging l m a w)) = Some (LogRecord l m a).
Proof. unfold logging. simpl. apply last_snoc. Qed.

(** A save that succeeded left the text of the stock at the path. *)
Lemma save_succeeded_file self w w' :
  save_data json_dump self w = Returned self w' → save_succeeded w' →
  fs w' !! file_path self = Some (Regular (json_dump (stock_data self))).
Proof.
  unfold save_data, write_file, save_succeeded.
  destruct (fs w !! file_path self) as [[text|e|content e]|] eqn:Hf;
    intros [= <-]; rewrite last_logging; try done;
    intros _; simpl; apply lookup_insert_eq.
Qed.

(** C6: when [save_data] has succeeded and the JSON library reads back
    the value it wrote for this stock, [load_data] on an instance with
    the same path, in a world where the file is as the save left it,
    returns with a stock equal to the saved one; so does the constructor
    of a fresh instance. *)
Theorem save_load_roundtrip (self other : inventory) (w w1 w2 : world) :
  json_load (json_dump (stock_data self)) = Decoded (stock_data self) →
  save_data json_dump self w = Returned self w1 →
  save_succeeded w1 →
  fs w2 !! file_path self = fs w1 !! file_path self →
  file_path other = file_path self →
  (∃ w3, load_data json_load other w2 = Returned (set_stock (stock_data self) other) w3) ∧
  (∃ w3, init json_load (file_path self) w2 =
         Returned (Inventory (stock_data self) (file_path self)) w3).
Proof.
  intros Hcodec Hsave Hok Hsame Hpath.
  pose proof (save_succeeded_file _ _ _ Hsave Hok) as Hfile.
  rewrite <- Hsame in Hfile.
  split; unfold init, load_data, read_file; simpl; rewrite ?Hpath, Hfile, Hcodec;
    by eauto.
Qed.

(** C7: [load_data] on a path where there is no file, and on a file whose
    text is not JSON, returns with the stock reset to the empty dict and
    logs a warning, respectively an error; the constructor on a path
    where there is no file returns an instance with an empty stock. *)
Theorem load_data_recovers (self : inventory) (w : world) :
  (fs w !! file_path self = None →
   load_data json_load self w =
     Returned (set_stock (PDict ∅) self)
       (logging WARNING "File %s not found. Starting fresh."
          [LVal (PStr (file_path self))] w)) ∧
  (∀ text,
     fs w !! file_path self = Some (Regular text) → json_load text = JSONDecodeError →
     load_data json_load self w =
       Returned (set_stock (PDict ∅) self)
         (logging ERROR "Error decoding JSON file. Starting fresh." [] w)) ∧
  (∀ path,
     fs w !! path = None →
     init json_load path w =
       Returned (Inventory (PDict ∅) path)
         (logging WARNING "File %s not found. Starting fresh." [LVal (PStr path)] w)).
Proof.
  repeat split.
  - intros Hf. unfold load_data, read_file. by rewrite Hf.
  - intros text Hf Hbad. unfold load_data, read_file. by rewrite Hf, Hbad.
  - intros path Hf. unfold init, load_data, read_file. simpl. by rewrite Hf.
Qed.

(** C8 (amended): [load_data] returns exactly when the file is missing
    (the stock is reset to the empty dict), when [json.load] raises
    [JSONDecodeError] (the stock is reset as well) and when [json.load]
    returns a value (which becomes the stock).  It has no handler for
    anything else: an [OSError] of [open] other than [FileNotFoundError], a
    [PermissionError] say, and an exception of [json.load] other than
    [JSONDecodeError] (a [UnicodeDecodeError] on bytes that are not UTF-8,
    a [ValueError] on an integer literal with too many digits, a
    [RecursionError]) reach the caller, and the instance and the log are
    then as before the call.  The constructor ends as its [load_data]
    does. *)
Theorem load_data_outcome (self : inventory) (w : world) :
  ((∃ self' w', load_data json_load self w = Returned self' w') ↔
   read_file (fs w) (file_path self) = inl FileNotFoundError ∨
   ∃ text, read_file (fs w) (file_path self) = inr text ∧
           (json_load text = JSONDecodeError ∨ ∃ v, json_load text = Decoded v)) ∧
  (∀ e, e ≠ FileNotFoundError →
        read_file (fs w) (file_path self) = inl e →
        load_data json_load self w = Raised (OSError e) self w) ∧
  (∀ text c, read_file (fs w) (file_path self) = inr text →
             json_load text = DecodeRaises c →
             load_data json_load self w = Raised (fault_exn c) self w) ∧
  (∀ e self' w', load_data json_load self w = Raised e self' w' →
                 self' = self ∧ w' = w) ∧
  init json_load (file_path self) w =
    load_data json_load (Inventory (PDict ∅) (file_path self)) w.
Proof.
  split; [|split; [|split; [|split]]]; [..|done]; unfold load_data;
    destruct (read_file (fs w) (file_path self)) as [e|text].
  - split.
    + destruct e; intros (s' & w' & H); try discriminate. by left.
    + intros [[= ->]|(text & [=] & _)]. by eauto.
  - split.
    + intros (s' & w' & H). right. exists text. split; [done|].
      destruct (json_load text); try discriminate; eauto.
    + intros [[=]|(text' & [= <-] & [->|[v ->]])]; by eauto.
  - intros e' Hne [= <-]. by destruct e.
  - intros e _ [=].
  - intros text c [=].
  - intros text' c [= <-] ->. done.
  - intros e' s' w' H. destruct e; by simplify_eq.
  - intros e s' w'. destruct (json_load text); intros [=]; by subst.
Qed.

(** C9: [save_data] returns, with the instance (its stock included) as it
    was, whether the write goes through or opening the file raises an
    [OSError]; in the second case the error is logged. *)
Theorem save_data_keeps_stock (self : inventory) (w : world) :
  ∃ w',
    save_data json_dump self w = Returned self w' ∧
    ∀ e, fs w !! file_path self = Some (Unavailable e) →
         w' = logging ERROR "Error saving inventory data: %s" [LExn e] w.
Proof.
  unfold save_data, write_file.
  destruct (fs w !! file_path self) as [[text|e|content e]|] eqn:Hf; eexists;
    (split; [done|]); intros e' [= ->] || intros e' [=]. done.
Qed.

(** C10: [load_data] installs whatever value the JSON text of the file
    decodes to, with no check that it is a dict of integers; when it
    returns, the stock is either that decoded value or, on a missing file
    or a text that is not JSON, and only then, the empty dict. *)
Theorem load_data_installs_decoded_value (self : inventory) (w : world) :
  (∀ text v,
     read_file (fs w) (file_path self) = inr text → json_load text = Decoded v →
     load_data json_load self w =
       Returned (set_stock v self)
         (logging INFO "Inventory data loaded successfully." [] w)) ∧
  (∀ self' w',
     load_data json_load self w = Returned self' w' →
     (∃ text v, read_file (fs w) (file_path self) = inr text ∧
                json_load text = Decoded v ∧ self' = set_stock v self) ∨
     (self' = set_stock (PDict ∅) self ∧
      (read_file (fs w) (file_path self) = inl FileNotFoundError ∨
       ∃ text, read_file (fs w) (file_path self) = inr text ∧
               json_load text = JSONDecodeError))).
Proof.
  split.
  - intros text v Hf Hv. unfold load_data. by rewrite Hf, Hv.
  - intros self' w'. unfold load_data.
    destruct (read_file (fs w) (file_path self)) as [e|text] eqn:Hf.
    + destruct e; intros [= <- _] || intros [=]. by eauto.
    + destruct (json_load text) as [v| |c] eqn:Hv; intros [= <- _] || intros [=];
        by eauto 10.
Qed.

End PersistenceFacts.

(** ** The reference codec reads back what it writes *)

Lemma string_app_cons a s r : String a s +:+ r = String a (s +:+ r).
Proof. reflexivity. Qed.

Lemma string_app_nil r : "" +:+ r = r.
Proof. reflexivity. Qed.

Lemma string_app_assoc (a b c : string) : (a +:+ b) +:+ c = a +:+ (b +:+ c).
Proof. induction a as [|x a IH]; [done|]. by rewrite !string_app_cons, IH. Qed.

Lemma read_string_escape c r :
  Json.read_string (Json.escape c +:+ r) =
    '(body, rest) ← Json.read_string r; Some (String c body, rest).
Proof.
  destruct c as [[] [] [] [] [] [] [] []]; reflexivity.
Qed.

Lemma read_string_write_string k r :
  Json.read_string (Json.escape_all k +:+ String Json.quote r) = Some (k, r).
Proof.
  induction k as [|c k IH]; [done|].
  cbn [Json.escape_all]. rewrite string_app_assoc, read_string_escape, IH. done.
Qed.

Lemma digit_value_pretty_N_char (m : N) :
  (m < 10)%N → Json.digit_value (pretty_N_char m) = Some (Z.of_N m).
Proof.
  intros Hm.
  assert (m = 0 ∨ m = 1 ∨ m = 2 ∨ m = 3 ∨ m = 4 ∨ m = 5 ∨ m = 6 ∨ m = 7 ∨
          m = 8 ∨ m = 9)%N as Hcases by lia.
  repeat (destruct Hcases as [->|Hcases]; [reflexivity|]). by subst.
Qed.

Lemma pretty_N_go_app x s r : pretty_N_go x s +:+ r = pretty_N_go x (s +:+ r).
Proof.
  revert s. induction (N.lt_wf_0 x) as [x _ IH]; intros s.
  destruct (decide (x = 0)%N) as [->|Hx]; [by rewrite !pretty_N_go_0|].
  rewrite (pretty_N_go_step x s), (pretty_N_go_step x (s +:+ r)) by lia.
  rewrite IH; [reflexivity|].
  apply N.div_lt; lia.
Qed.

Lemma read_digits_pretty_N_go (x : N) (s : string) :
  (0 < x)%N →
  ∃ c r d,
    pretty_N_go x s = String c r ∧
    Json.digit_value c = Some d ∧ d ≠ 0 ∧
    Json.read_digits d r = Json.read_digits (Z.of_N x) s.
Proof.
  revert s. induction (N.lt_wf_0 x) as [x _ IH]; intros s Hx.
  rewrite pretty_N_go_step by done.
  assert (x `mod` 10 < 10)%N as Hmod by (apply N.mod_lt; lia).
  pose proof (N.div_mod x 10 ltac:(lia)) as Hdiv.
  destruct (decide (x `div` 10 = 0)%N) as [H0|H0].
  - rewrite H0, pretty_N_go_0. do 3 eexists. split; [done|].
    split; [by apply digit_value_pretty_N_char|].
    split; [lia|]. do 2 f_equal. lia.
  - destruct (IH (x `div` 10)%N) with (s := String (pretty_N_char (x `mod` 10)) s)
      as (c & r & d & -> & Hc & Hd & Hread); [apply N.div_lt; lia|lia|].
    exists c, r, d. split; [done|]. split; [done|]. split; [done|].
    rewrite Hread. cbn [Json.read_digits].
    rewrite digit_value_pretty_N_char by done. f_equal. lia.
Qed.

Lemma read_digits_end n rest : ends_number rest → Json.read_digits n rest = (n, rest).
Proof. destruct rest as [|c rest]; [done|]. intros [Hc _]. simpl. by rewrite Hc. Qed.

Lemma read_natural_pretty (x : N) (rest : string) :
  ends_number rest →
  Json.read_natural (pretty x +:+ rest) = Some (Z.of_N x, rest).
Proof.
  intros Hrest. unfold pretty, pretty_N. case_decide as Hx.
  - subst x. rewrite string_app_cons, string_app_nil. unfold Json.read_natural. simpl.
    destruct rest as [|c rest]; [done|]. destruct Hrest as [_ Hc].
    by rewrite bool_decide_eq_false_2.
  - rewrite pretty_N_go_app, string_app_nil.
    destruct (read_digits_pretty_N_go x rest) as (c & r & d & -> & Hc & Hd & Hread);
      [lia|].
    unfold Json.read_natural. rewrite Hc. simpl.
    rewrite bool_decide_eq_false_2 by done. rewrite Hread, read_digits_end by done.
    destruct rest as [|c' rest]; [done|]. destruct Hrest as [_ Hc'].
    by rewrite bool_decide_eq_false_2.
Qed.

Lemma read_value_digit fuel c r :
  is_Some (Json.digit_value c) →
  Json.read_value (S fuel) (String c r) =
    '(n, rest) ← Json.read_natural (String c r); Some (PInt n, rest).
Proof.
  intros [d Hd]. revert Hd.
  destruct c as [[] [] [] [] [] [] [] []]; intros Hd; try (by vm_compute in Hd);
    reflexivity.
Qed.

Lemma pretty_N_first (x : N) (rest : string) :
  ∃ c r, pretty x +:+ rest = String c r ∧ is_Some (Json.digit_value c).
Proof.
  unfold pretty, pretty_N. case_decide as Hx.
  - exists "0"%char, rest. split; [done|]. by eexists.
  - rewrite pretty_N_go_app, string_app_nil.
    destruct (read_digits_pretty_N_go x rest) as (c & r & d & -> & Hc & _); [lia|].
    by eauto.
Qed.

Lemma read_value_pretty_N fuel (x : N) rest :
  ends_number rest →
  Json.read_value (S fuel) (pretty x +:+ rest) = Some (PInt (Z.of_N x), rest).
Proof.
  intros Hrest. destruct (pretty_N_first x rest) as (c & r & Heq & Hc).
  pose proof (read_natural_pretty x rest Hrest) as Hnat.
  rewrite Heq in *. by rewrite read_value_digit, Hnat.
Qed.

Lemma read_value_pretty fuel (z : Z) rest :
  ends_number rest →
  Json.read_value (S fuel) (String " " (pretty z +:+ rest)) = Some (PInt z, rest).
Proof.
  intros Hrest.
  assert (∀ s, Json.read_value (S fuel) (String " " s) = Json.read_value (S fuel) s)
    as -> by done.
  destruct z as [|p|p].
  - apply (read_value_pretty_N fuel 0 rest Hrest).
  - apply (read_value_pretty_N fuel (N.pos p) rest Hrest).
  - change (pretty (Z.neg p) +:+ rest) with (String "-" (pretty (N.pos p) +:+ rest)).
    change (Json.read_value (S fuel) (String "-" (pretty (N.pos p) +:+ rest)))
      with ('(n, rest') ← Json.read_natural (pretty (N.pos p) +:+ rest);
            Some (PInt (- n), rest')).
    by rewrite read_natural_pretty.
Qed.

Lemma concat_cons2 sep (a b : string) l :
  String.concat sep (a :: b :: l) = a +:+ sep +:+ String.concat sep (b :: l).
Proof. reflexivity. Qed.

Lemma members_text_cons2 kn kn' later rest :
  members_text (kn :: kn' :: later) rest =
    String Json.newline (Json.spaces 4) +:+ member_text kn +:+
    String "," (members_text (kn' :: later) rest).
Proof. reflexivity. Qed.

Lemma concat_members (kn : string * Z) (members : list (string * Z)) :
  String Json.newline (Json.spaces 4) +:+
  String.concat (String "," (String Json.newline (Json.spaces 4)))
    (member_text <$> kn :: members) +:+ String Json.newline "}" =
  members_text (kn :: members) "".
Proof.
  revert kn. induction members as [|kn' members IH]; intros kn; [reflexivity|].
  rewrite members_text_cons2, <- IH, !fmap_cons, concat_cons2.
  by rewrite !string_app_assoc, !string_app_cons.
Qed.

Lemma write_block_members (members : list (string * Z)) :
  members ≠ [] →
  Json.write_block "{" "}" 0 (member_text <$> members) =
    String "{" (members_text members "").
Proof.
  destruct members as [|kn members]; [done|]. intros _.
  rewrite <- concat_members. reflexivity.
Qed.

Lemma skip_spaces_indent s :
  Json.skip_spaces (String Json.newline (Json.spaces 4) +:+ String Json.quote s) =
    String Json.quote s.
Proof. reflexivity. Qed.

Lemma members_text_first kn later rest :
  ∃ s, members_text (kn :: later) rest =
         String Json.newline (Json.spaces 4) +:+ String Json.quote s.
Proof.
  destruct later; eexists; cbn [members_text]; unfold member_text, Json.write_string;
    rewrite !string_app_cons; reflexivity.
Qed.

(** Reading the members that [members_text] lays out inserts them one by
    one. *)
Lemma read_members_text fuel vfuel (members : list (string * Z)) acc rest :
  members ≠ [] → (length members ≤ fuel)%nat →
  Json.read_members (Json.read_value (S vfuel)) fuel acc (members_text members rest) =
    Some (PDict (foldl insert_member acc members), rest).
Proof.
  revert fuel acc. induction members as [|[k n] later IH]; intros fuel acc Hne Hfuel;
    [done|].
  destruct fuel as [|fuel]; [simpl in Hfuel; lia|].
  assert (members_text ((k, n) :: later) rest =
          String Json.newline (Json.spaces 4) +:+
          String Json.quote (Json.escape_all k +:+ String Json.quote
            (String ":" (String " " (pretty n +:+
               match later with
               | [] => String Json.newline (String "}" rest)
               | _ => String "," (members_text later rest)
               end))))) as ->.
  { cbn [members_text]. unfold member_text, Json.write_string. simpl fst. simpl snd.
    by rewrite !string_app_cons, !string_app_assoc, !string_app_cons, !string_app_nil. }
  cbn [Json.read_members]. rewrite skip_spaces_indent.
  rewrite bool_decide_eq_true_2 by done.
  rewrite read_string_write_string. cbn [mbind option_bind].
  change (Json.skip_spaces (String ":" ?s)) with (String ":" s).
  cbv iota beta.
  destruct later as [|kn' later].
  - rewrite read_value_pretty by (split; [done|by vm_compute; set_solver]).
    cbn [mbind option_bind]. reflexivity.
  - rewrite read_value_pretty by (split; [done|by vm_compute; set_solver]).
    cbn [mbind option_bind].
    change (Json.skip_spaces (String "," ?s)) with (String "," s).
    cbv iota beta. rewrite IH; [done|done|simpl in *; lia].
Qed.

Lemma string_length_app (a b : string) :
  String.length (a +:+ b) = (String.length a + String.length b)%nat.
Proof. induction a as [|c a IH]; [done|]. rewrite string_app_cons. simpl. by rewrite IH. Qed.

Lemma length_members_text members rest :
  (length members ≤ String.length (members_text members rest))%nat.
Proof.
  induction members as [|kn later IH]; [simpl; lia|].
  cbn [members_text]. rewrite !string_length_app. destruct later as [|kn' later].
  - simpl. lia.
  - simpl in *. lia.
Qed.

Lemma foldl_insert_member (members : list (string * Z)) (acc : gmap string pyval) :
  NoDup members.*1 →
  foldl insert_member acc members = (PInt <$> list_to_map members) ∪ acc.
Proof.
  revert acc. induction members as [|[k n] later IH]; intros acc Hnd; simpl.
  - by rewrite fmap_empty, (left_id_L ∅ (∪)).
  - apply NoDup_cons in Hnd as [Hk Hnd]. rewrite IH by done.
    unfold insert_member. simpl. rewrite fmap_insert, <- insert_union_l.
    rewrite insert_union_r; [done|].
    rewrite lookup_fmap. by rewrite (not_elem_of_list_to_map_1 _ _ Hk).
Qed.

Lemma int_dict_fmap (d : gmap string pyval) :
  map_Forall (λ _ v, ∃ n, v = PInt n) d → ∃ dz : gmap string Z, d = PInt <$> dz.
Proof.
  intros Hd. exists (omap int_value d). apply map_eq. intros k.
  rewrite lookup_fmap, lookup_omap. destruct (d !! k) as [v|] eqn:Hk; [|done].
  by destruct (Hd k v Hk) as [n ->].
Qed.

Lemma read_value_object fuel (members s : string) :
  Json.skip_spaces members = String Json.quote s →
  Json.read_value (S fuel) (String "{" members) =
    Json.read_members (Json.read_value fuel) fuel ∅ members.
Proof.
  intros Hs.
  change (Json.read_value (S fuel) (String "{" members)) with
    (match Json.skip_spaces members with
     | String "}" rest' => Some (PDict ∅, rest')
     | _ => Json.read_members (Json.read_value fuel) fuel ∅ members
     end).
  by rewrite Hs.
Qed.

(** The reference codec reads back every dict of integers that it wrote. *)
Theorem load_dump_int_dict (d : gmap string pyval) :
  map_Forall (λ _ v, ∃ n, v = PInt n) d →
  Json.load (Json.dump (PDict d)) = Some (PDict d).
Proof.
  intros [dz ->]%int_dict_fmap.
  unfold Json.dump. cbn [Json.write].
  rewrite <- map_fmap_compose.
  change (Json.write 1 ∘ PInt) with (pretty : Z → string).
  rewrite map_to_list_fmap, <- list_fmap_compose.
  change ((λ kv : string * string, Json.write_string kv.1 +:+ ": " +:+ kv.2)
            ∘ prod_map id pretty) with member_text.
  pose proof (NoDup_fst_map_to_list dz) as Hnd.
  pose proof (list_to_map_to_list dz) as Hdz.
  revert Hnd Hdz. generalize (map_to_list dz). intros l Hnd Hdz.
  destruct (decide (l = [])) as [->|Hne].
  - simpl in Hdz. subst dz. by rewrite fmap_empty.
  - rewrite write_block_members by done.
    destruct l as [|kn later]; [done|].
    destruct (members_text_first kn later "") as [s Hs].
    unfold Json.load. cbn [String.length].
    rewrite (read_value_object _ _ s) by (by rewrite Hs).
    rewrite read_members_text;
      [|done|pose proof (length_members_text (kn :: later) ""); lia].
    cbn [mbind option_bind]. simpl Json.skip_spaces. cbv iota.
    by rewrite foldl_insert_member, Hdz, (right_id_L ∅ (∪)).
Qed.

Lemma decode_dump_int_dict (d : gmap string pyval) :
  map_Forall (λ _ v, ∃ n, v = PInt n) d →
  Json.decode (Json.dump (PDict d)) = Decoded (PDict d).
Proof. intros Hd. unfold Json.decode. by rewrite load_dump_int_dict. Qed.

(** With the reference codec, a stock of integers that was saved is the
    stock of a fresh instance on the same file. *)
Corollary reference_codec_roundtrip (d : gmap string pyval) (path : string) (w w1 : world) :
  map_Forall (λ _ v, ∃ n, v = PInt n) d →
  save_data Json.dump (Inventory (PDict d) path) w = Returned (Inventory (PDict d) path) w1 →
  save_succeeded w1 →
  ∃ w2, init Json.decode path w1 = Returned (Inventory (PDict d) path) w2.
Proof.
  intros Hd Hsave Hok.
  pose proof (save_succeeded_file Json.dump _ _ _ Hsave Hok) as Hfile. simpl in Hfile.
  unfold init, load_data, read_file. simpl. rewrite Hfile, decode_dump_int_dict by done.
  by eauto.
Qed.

(** ** The persistence claims on concrete files, with the reference codec *)

(** C6 on the stock that [main] saves: 7 of "apple" and 2 of "banana". *)
Lemma save_load_roundtrip_example :
  ∃ w1,
    save_data Json.dump
      (Inventory (PDict {["apple" := PInt 7; "banana" := PInt 2]}) "inventory.json")
      (World ∅ []) =
    Returned (Inventory (PDict {["apple" := PInt 7; "banana" := PInt 2]}) "inventory.json")
      w1 ∧
    save_succeeded w1 ∧
    (∃ w3, load_data Json.decode (Inventory (PDict {["pear" := PInt 1]}) "inventory.json") w1 =
           Returned (Inventory (PDict {["apple" := PInt 7; "banana" := PInt 2]})
                       "inventory.json") w3) ∧
    (∃ w3, init Json.decode "inventory.json" w1 =
           Returned (Inventory (PDict {["apple" := PInt 7; "banana" := PInt 2]})
                       "inventory.json") w3).
Proof.
  eexists. split; [vm_compute; reflexivity|]. split; [vm_compute; reflexivity|].
  eapply (save_load_roundtrip Json.dump Json.decode
            (Inventory (PDict {["apple" := PInt 7; "banana" := PInt 2]}) "inventory.json")
            (Inventory (PDict {["pear" := PInt 1]}) "inventory.json")
            (World ∅ [])).
  - vm_compute; reflexivity.
  - vm_compute; reflexivity.
  - vm_compute; reflexivity.
  - reflexivity.
  - reflexivity.
Defined.

(** C7 on a world without files and on a file that holds only an opening
    brace. *)
Lemma load_data_recovers_example :
  load_data Json.decode (Inventory (PDict {["pear" := PInt 1]}) "inventory.json") (World ∅ []) =
    Returned (Inventory (PDict ∅) "inventory.json")
      (World ∅ [LogRecord WARNING "File %s not found. Starting fresh."
                  [LVal (PStr "inventory.json")]]) ∧
  load_data Json.decode (Inventory (PDict {["pear" := PInt 1]}) "inventory.json")
      (World {["inventory.json" := Regular "{"]} []) =
    Returned (Inventory (PDict ∅) "inventory.json")
      (World {["inventory.json" := Regular "{"]}
         [LogRecord ERROR "Error decoding JSON file. Starting fresh." []]) ∧
  init Json.decode "inventory.json" (World ∅ []) =
    Returned (Inventory (PDict ∅) "inventory.json")
      (World ∅ [LogRecord WARNING "File %s not found. Starting fresh."
                  [LVal (PStr "inventory.json")]]).
Proof.
  split; [|split].
  - destruct (load_data_recovers Json.decode
                (Inventory (PDict {["pear" := PInt 1]}) "inventory.json") (World ∅ []))
      as (Hmissing & _ & _).
    apply Hmissing. reflexivity.
  - destruct (load_data_recovers Json.decode
                (Inventory (PDict {["pear" := PInt 1]}) "inventory.json")
                (World {["inventory.json" := Regular "{"]} []))
      as (_ & Hbad & _).
    apply (Hbad "{"); vm_compute; reflexivity.
  - destruct (load_data_recovers Json.decode
                (Inventory (PDict ∅) "inventory.json") (World ∅ []))
      as (_ & _ & Hinit).
    apply (Hinit "inventory.json"). reflexivity.
Defined.

(** C9 on a path that cannot be opened for writing and on a world without
    files: the instance comes back as it was. *)
Lemma save_data_keeps_stock_example :
  save_data Json.dump (Inventory (PDict {["pear" := PInt 1]}) "inventory.json")
    (World {["inventory.json" := Unavailable PermissionError]} []) =
  Returned (Inventory (PDict {["pear" := PInt 1]}) "inventory.json")
    (World {["inventory.json" := Unavailable PermissionError]}
       [LogRecord ERROR "Error saving inventory data: %s" [LExn PermissionError]]) ∧
  ∃ w', save_data Json.dump (Inventory (PDict {["pear" := PInt 1]}) "inventory.json")
          (World ∅ []) =
        Returned (Inventory (PDict {["pear" := PInt 1]}) "inventory.json") w'.
Proof.
  split.
  - destruct (save_data_keeps_stock Json.dump
                (Inventory (PDict {["pear" := PInt 1]}) "inventory.json")
                (World {["inventory.json" := Unavailable PermissionError]} []))
      as (w' & Hsave & Hfail).
    rewrite Hsave. f_equal. apply Hfail. reflexivity.
  - destruct (save_data_keeps_stock Json.dump
                (Inventory (PDict {["pear" := PInt 1]}) "inventory.json") (World ∅ []))
      as (w' & Hsave & _).
    exists w'. exact Hsave.
Defined.

(** C10 on a file that holds a JSON array: the stock becomes a list. *)
Lemma load_data_installs_decoded_value_example :
  load_data Json.decode (Inventory (PDict ∅) "inventory.json")
      (World {["inventory.json" := Regular "[1, 2]"]} []) =
    Returned (Inventory (PList [PInt 1; PInt 2]) "inventory.json")
      (World {["inventory.json" := Regular "[1, 2]"]}
         [LogRecord INFO "Inventory data loaded successfully." []]).
Proof.
  destruct (load_data_installs_decoded_value Json.decode
              (Inventory (PDict ∅) "inventory.json")
              (World {["inventory.json" := Regular "[1, 2]"]} []))
    as [Hinstall _].
  apply (Hinstall "[1, 2]" (PList [PInt 1; PInt 2])); vm_compute; reflexivity.
Defined.

(** A file that holds a number is installed as well, and the next
    [add_item] on such a stock raises [AttributeError]. *)
Example load_number_then_add :
  ∃ self w,
    load_data Json.decode (Inventory (PDict ∅) "inventory.json")
      (World {["inventory.json" := Regular "5"]} []) = Returned self w ∧
    stock_data self = PInt 5 ∧
    add_item self w (PStr "apple") (PInt 1) = Raised AttributeError self w.
Proof. do 2 eexists. repeat split; vm_compute; reflexivity. Qed.

(** C8, as the specification states it, fails: on a backing file that
    cannot be read, [load_data] raises [PermissionError], and so does the
    constructor. *)
Lemma load_data_permission_error :
  load_data Json.decode (Inventory (PDict {["pear" := PInt 1]}) "inventory.json")
    (World {["inventory.json" := Unavailable PermissionError]} []) =
  Raised (OSError PermissionError)
    (Inventory (PDict {["pear" := PInt 1]}) "inventory.json")
    (World {["inventory.json" := Unavailable PermissionError]} []) ∧
  init Json.decode "inventory.json"
    (World {["inventory.json" := Unavailable PermissionError]} []) =
  Raised (OSError PermissionError) (Inventory (PDict ∅) "inventory.json")
    (World {["inventory.json" := Unavailable PermissionError]} []).
Proof. split; vm_compute; reflexivity. Qed.

(** The demonstration of [main] from a world without files: the quantity
    of "apple" is 7, "banana" is low, and the stock that is loaded back is
    the one that was saved. *)
Example main_demonstration :
  ∃ s0 w0 s1 w1 w2 s3 w3,
    init Json.decode "inventory.json" (World ∅ []) = Returned s0 w0 ∧
    run [Add (PStr "apple") (PInt 10); Add (PStr "banana") (PInt 2);
         Add (PStr "orange") (PInt 6); Remove (PStr "apple") (PInt 3);
         Remove (PStr "orange") (PInt 10)] s0 w0 = Returned s1 w1 ∧
    get_qty s1 "apple" = Ok (PInt 7) ∧
    check_low_items s1 default_threshold = Ok ["banana"] ∧
    save_data Json.dump s1 w1 = Returned s1 w2 ∧
    load_data Json.decode s1 w2 = Returned s3 w3 ∧
    stock_data s3 = PDict {["apple" := PInt 7; "banana" := PInt 2]}.
Proof. do 7 eexists. repeat split; vm_compute; reflexivity. Qed.

(** * Further properties of the code

    ** What the mutations leave alone *)

(** The result of a subtraction can be compared with 0. *)
Lemma minus_int_le_int v n v' : minus_int v n = Some v' → is_Some (le_int v' 0).
Proof.
  unfold minus_int. destruct (int_value v); intros [= <-]. by eexists.
Qed.

(** One [add_item] or [remove_item] call leaves the files and the path
    alone; when it returns it has put one record on the log, and when it
    raises the instance and the world are as before. *)
Theorem mutation_frame (c : call) (self : inventory) (w : world) :
  fs (world_of (perform c self w)) = fs w ∧
  file_path (self_of (perform c self w)) = file_path self ∧
  match raised (perform c self w) with
  | None => ∃ r, log (world_of (perform c self w)) = (log w ++ [r])%list
  | Some _ => self_of (perform c self w) = self ∧ world_of (perform c self w) = w
  end.
Proof.
  destruct c as [item qty|item qty]; unfold perform, add_item, remove_item.
  - repeat (case_match || case_bool_decide); simplify_eq/=; eauto.
  - repeat (case_match || case_bool_decide); simplify_eq/=; eauto.
    match goal with H : _ ≫= _ = Some ?v, H' : le_int ?v 0 = None |- _ =>
      apply bind_Some in H as (? & _ & H); apply minus_int_le_int in H as [? H];
      congruence end.
Qed.

(** X1: a sequence of [add_item] and [remove_item] calls never touches
    the files or the path of the instance, and when it runs to its end the
    log has grown by exactly one record per call. *)
Theorem run_frame (cs : list call) (self : inventory) (w : world) :
  fs (world_of (run cs self w)) = fs w ∧
  file_path (self_of (run cs self w)) = file_path self ∧
  (raised (run cs self w) = None →
   ∃ records, log (world_of (run cs self w)) = (log w ++ records)%list ∧
              length records = length cs).
Proof.
  revert self w. induction cs as [|c cs IH]; intros self w; simpl.
  - split; [done|]. split; [done|]. intros _. exists []. by rewrite app_nil_r.
  - destruct (mutation_frame c self w) as (Hfs & Hpath & Hlog).
    destruct (perform c self w) as [s1 w1|e s1 w1]; simpl in *; [|by eauto].
    destruct (IH s1 w1) as (Hfs' & Hpath' & Hlog').
    split; [congruence|]. split; [congruence|]. intros Hret.
    destruct Hlog as [r Hr]. destruct (Hlog' Hret) as (rs & Hrs & Hlen).
    exists (r :: rs). rewrite Hrs, Hr, <- app_assoc. simpl. by rewrite Hlen.
Qed.

(** X2: when the item is no string or the quantity is no integer, both
    [add_item] and [remove_item] return with the instance as it was and log
    the same warning, whatever the stock is: the check comes before the
    stock is looked at. *)
Theorem invalid_arguments_rejected (self : inventory) (w : world) (item qty : pyval) :
  (∀ name, item ≠ PStr name) ∨ int_value qty = None →
  add_item self w item qty =
    Returned self (logging WARNING "Invalid item name or quantity type." [] w) ∧
  remove_item self w item qty =
    Returned self (logging WARNING "Invalid item name or quantity type." [] w).
Proof.
  intros [Hitem|Hqty]; unfold add_item, remove_item.
  - destruct item; try done. by destruct (Hitem s).
  - rewrite Hqty. by destruct item.
Qed.

(** ** How the mutations compose *)

(** X3: adding a quantity [n >= 0] of an item and removing it again gives
    back the stock there was, when the item was missing or had a strictly
    positive quantity; an entry whose quantity was 0 is deleted instead. *)
Theorem add_then_remove (d : gmap string pyval) (path : string) (w : world)
    (name : string) (n : Z) :
  0 ≤ n →
  (d !! name = None ∨ (∃ q, d !! name = Some (PInt q) ∧ 0 < q) →
   ∃ w', run [Add (PStr name) (PInt n); Remove (PStr name) (PInt n)]
           (Inventory (PDict d) path) w = Returned (Inventory (PDict d) path) w') ∧
  (d !! name = Some (PInt 0) →
   ∃ w', run [Add (PStr name) (PInt n); Remove (PStr name) (PInt n)]
           (Inventory (PDict d) path) w =
         Returned (Inventory (PDict (delete name d)) path) w').
Proof.
  intros Hn. split.
  - intros Hd. cbn [run perform].
    assert (∃ q, default (PInt 0) (d !! name) = PInt q ∧ 0 ≤ q ∧
                 (d !! name = None ∧ q = 0 ∨ d !! name = Some (PInt q) ∧ 0 < q))
      as (q & Hq & Hq0 & Hcase).
    { destruct Hd as [Hd|(q & Hd & Hq)]; rewrite Hd; [exists 0|exists q]; simpl;
        (split; [done|]); (split; [lia|]); eauto. }
    rewrite (add_item_dict d path w name (PInt n) n q eq_refl Hq).
    rewrite bool_decide_eq_false_2 by lia.
    rewrite (remove_item_dict _ path _ name (PInt n) n (q + n) eq_refl)
      by apply lookup_insert_eq.
    rewrite bool_decide_eq_false_2 by lia.
    destruct Hcase as [[Hd' ->]|[Hd' Hpos]].
    + rewrite bool_decide_eq_true_2 by lia.
      rewrite delete_insert_eq, delete_id by done. by eauto.
    + rewrite bool_decide_eq_false_2 by lia.
      rewrite insert_insert_eq. replace (q + n - n) with q by lia.
      rewrite insert_id by done. by eauto.
  - intros Hd. cbn [run perform].
    rewrite (add_item_dict d path w name (PInt n) n 0 eq_refl) by (by rewrite Hd).
    rewrite bool_decide_eq_false_2 by lia.
    rewrite (remove_item_dict _ path _ name (PInt n) n (0 + n) eq_refl)
      by apply lookup_insert_eq.
    rewrite bool_decide_eq_false_2 by lia.
    rewrite bool_decide_eq_true_2 by lia.
    rewrite delete_insert_eq. by eauto.
Qed.

(** One [add_item] with an integer quantity on a dict whose entry for the
    item is the integer [q] (0 when it is missing). *)
Lemma add_item_int d path w name n q :
  default (PInt 0) (d !! name) = PInt q →
  ∃ w', add_item (Inventory (PDict d) path) w (PStr name) (PInt n) =
        Returned (Inventory (PDict (if bool_decide (n < 0) then d
                                    else <[name := PInt (q + n)]> d)) path) w'.
Proof.
  intros Hq. rewrite (add_item_dict d path w name (PInt n) n q eq_refl Hq).
  case_bool_decide; by eauto.
Qed.

Lemma remove_item_int d path w name n :
  (d !! name = None ∨ ∃ q, d !! name = Some (PInt q)) →
  ∃ w', remove_item (Inventory (PDict d) path) w (PStr name) (PInt n) =
        Returned
          (Inventory
             (PDict (match d !! name ≫= int_value with
                     | Some q =>
                         if bool_decide (n < 0) then d
                         else if bool_decide (q - n ≤ 0) then delete name d
                         else <[name := PInt (q - n)]> d
                     | None => d
                     end)) path) w'.
Proof.
  intros [Hd|[q Hd]].
  - rewrite (remove_item_absent d path w name (PInt n) n eq_refl Hd), Hd. by eauto.
  - rewrite (remove_item_dict d path w name (PInt n) n q eq_refl Hd), Hd. simpl.
    repeat case_bool_decide; by eauto.
Qed.

(** X4: two [add_item] calls with integer quantities give the same stock
    in either order (the items may be the same), and neither raises. *)
Theorem adds_commute (d : gmap string pyval) (path : string) (w : world)
    (a b : string) (m n qa qb : Z) :
  default (PInt 0) (d !! a) = PInt qa →
  default (PInt 0) (d !! b) = PInt qb →
  raised (run [Add (PStr a) (PInt m); Add (PStr b) (PInt n)]
            (Inventory (PDict d) path) w) = None ∧
  self_of (run [Add (PStr a) (PInt m); Add (PStr b) (PInt n)]
             (Inventory (PDict d) path) w) =
  self_of (run [Add (PStr b) (PInt n); Add (PStr a) (PInt m)]
             (Inventory (PDict d) path) w).
Proof.
  intros Ha Hb. cbn [run perform].
  destruct (add_item_int d path w a m qa Ha) as [w1 ->].
  destruct (add_item_int d path w b n qb Hb) as [w2 ->].
  set (d1 := if bool_decide (m < 0) then d else <[a := PInt (qa + m)]> d).
  set (d2 := if bool_decide (n < 0) then d else <[b := PInt (qb + n)]> d).
  assert (∃ q, default (PInt 0) (d1 !! b) = PInt q ∧
               (q = qb + (if bool_decide (a = b) then Z.max 0 m else 0))) as (q1 & Hq1 & ->).
  { unfold d1. case_bool_decide; case_bool_decide; subst;
      rewrite ?lookup_insert_eq, ?lookup_insert_ne by done; simpl;
      eexists; (split; [done|]); (congruence || (assert (qa = qb) by congruence; lia) || lia). }
  assert (∃ q, default (PInt 0) (d2 !! a) = PInt q ∧
               (q = qa + (if bool_decide (a = b) then Z.max 0 n else 0))) as (q2 & Hq2 & ->).
  { unfold d2. case_bool_decide; case_bool_decide; subst;
      rewrite ?lookup_insert_eq, ?lookup_insert_ne by done; simpl;
      eexists; (split; [done|]); (congruence || (assert (qa = qb) by congruence; lia) || lia). }
  destruct (add_item_int d1 path w1 b n _ Hq1) as [w3 ->].
  destruct (add_item_int d2 path w2 a m _ Hq2) as [w4 ->].
  simpl. split; [done|]. f_equal. f_equal. unfold d1, d2.
  destruct (decide (a = b)) as [->|Hab].
  - assert (qa = qb) as -> by congruence.
    rewrite !(bool_decide_eq_true_2 (b = b)) by done.
    repeat case_bool_decide; rewrite ?insert_insert_eq; try done; do 2 f_equal; lia.
  - rewrite !(bool_decide_eq_false_2 (a = b)) by done.
    rewrite !Z.add_0_r.
    repeat case_bool_decide; try done. by rewrite insert_insert_ne.
Qed.

(** X5: adding [m] and then [n] of an item gives the stock that adding
    [m + n] gives, and removing [m] and then [n] gives the stock that
    removing [m + n] gives, for quantities that are not negative. *)
Theorem repeated_calls_accumulate (d : gmap string pyval) (path : string) (w : world)
    (name : string) (m n q : Z) :
  0 ≤ m → 0 ≤ n →
  (default (PInt 0) (d !! name) = PInt q →
   raised (run [Add (PStr name) (PInt m); Add (PStr name) (PInt n)]
             (Inventory (PDict d) path) w) = None ∧
   self_of (run [Add (PStr name) (PInt m); Add (PStr name) (PInt n)]
              (Inventory (PDict d) path) w) =
   self_of (run [Add (PStr name) (PInt (m + n))] (Inventory (PDict d) path) w)) ∧
  (d !! name = None ∨ d !! name = Some (PInt q) →
   raised (run [Remove (PStr name) (PInt m); Remove (PStr name) (PInt n)]
             (Inventory (PDict d) path) w) = None ∧
   self_of (run [Remove (PStr name) (PInt m); Remove (PStr name) (PInt n)]
              (Inventory (PDict d) path) w) =
   self_of (run [Remove (PStr name) (PInt (m + n))] (Inventory (PDict d) path) w)).
Proof.
  intros Hm Hn. split.
  - intros Hq. cbn [run perform].
    destruct (add_item_int d path w name m q Hq) as [w1 ->].
    destruct (add_item_int d path w name (m + n) q Hq) as [w2 ->].
    rewrite (bool_decide_eq_false_2 (m < 0)), (bool_decide_eq_false_2 (m + n < 0)) by lia.
    destruct (add_item_int (<[name := PInt (q + m)]> d) path w1 name n (q + m))
      as [w3 ->]; [by rewrite lookup_insert_eq|].
    rewrite (bool_decide_eq_false_2 (n < 0)) by lia. simpl. split; [done|].
    rewrite insert_insert_eq. by replace (q + m + n) with (q + (m + n)) by lia.
  - intros Hd. cbn [run perform].
    destruct (remove_item_int d path w name m) as [w1 ->]; [naive_solver|].
    destruct (remove_item_int d path w name (m + n)) as [w2 ->]; [naive_solver|].
    destruct Hd as [Hd|Hd]; rewrite Hd; cbn [mbind option_bind int_value].
    + destruct (remove_item_int d path w1 name n) as [w3 ->]; [by left|].
      by rewrite Hd.
    + rewrite (bool_decide_eq_false_2 (m < 0)), (bool_decide_eq_false_2 (m + n < 0)) by lia.
      destruct (decide (q - m ≤ 0)) as [Hle|Hgt].
      * rewrite (bool_decide_eq_true_2 (q - m ≤ 0)),
          (bool_decide_eq_true_2 (q - (m + n) ≤ 0)) by lia.
        destruct (remove_item_int (delete name d) path w1 name n) as [w3 ->];
          [left; apply lookup_delete_eq|].
        by rewrite lookup_delete_eq.
      * rewrite (bool_decide_eq_false_2 (q - m ≤ 0)) by lia.
        destruct (remove_item_int (<[name := PInt (q - m)]> d) path w1 name n)
          as [w3 ->]; [right; eexists; apply lookup_insert_eq|].
        rewrite lookup_insert_eq. cbn [mbind option_bind int_value].
        rewrite (bool_decide_eq_false_2 (n < 0)) by lia. simpl. split; [done|].
        replace (q - (m + n)) with (q - m - n) by lia.
        case_bool_decide.
        -- by rewrite delete_insert_eq.
        -- by rewrite insert_insert_eq.
Qed.

(** ** The low-stock report and the threshold *)

Lemma low_items_sublist (items : list (string * pyval)) (t1 t2 : Z) names1 names2 :
  t1 ≤ t2 →
  low_items items t1 = Ok names1 → low_items items t2 = Ok names2 →
  names1 `sublist_of` names2.
Proof.
  intros Ht. revert names1 names2.
  induction items as [|[k v] rest IH]; intros names1 names2; simpl.
  - by intros [= <-] [= <-].
  - unfold lt_int. destruct (int_value v) as [q|]; simpl; [|done].
    destruct (low_items rest t1) as [n1|]; [|done].
    destruct (low_items rest t2) as [n2|]; [|done].
    intros [= <-] [= <-]. specialize (IH n1 n2 eq_refl eq_refl).
    repeat case_bool_decide; try lia.
    + by apply sublist_skip.
    + by apply sublist_cons.
    + done.
Qed.

(** X6: raising the threshold keeps every reported item: the report at a
    threshold is a sublist of the report at any larger threshold. *)
Theorem check_low_items_monotone (self : inventory) (t1 t2 : Z)
    (names1 names2 : list string) :
  t1 ≤ t2 →
  check_low_items self t1 = Ok names1 →
  check_low_items self t2 = Ok names2 →
  names1 `sublist_of` names2.
Proof.
  unfold check_low_items. destruct (stock_data self); try done.
  apply low_items_sublist.
Qed.

Lemma low_items_none (items : list (string * pyval)) (t : Z) :
  (∀ k v, (k, v) ∈ items → ∃ q, v = PInt q ∧ t ≤ q) →
  low_items items t = Ok [].
Proof.
  induction items as [|[k v] rest IH]; intros Hall; simpl; [done|].
  destruct (Hall k v) as (q & -> & Hq); [apply elem_of_cons; by left|].
  rewrite IH by (intros k' v' Hin; apply (Hall k' v'), elem_of_cons; by right).
  simpl. by rewrite bool_decide_eq_false_2 by lia.
Qed.

(** X7: after any sequence of [add_item] and [remove_item] calls on an
    empty stock, [check_low_items] with a threshold of 0 or below reports
    nothing. *)
Theorem nothing_low_at_nonpositive_threshold (cs : list call) (path : string) (w : world) :
  ∃ self' w',
    run cs (Inventory (PDict ∅) path) w = Returned self' w' ∧
    ∀ threshold, threshold ≤ 0 → check_low_items self' threshold = Ok [].
Proof.
  destruct (run_quantities cs _ w (empty_stock_nonneg path))
    as (self' & w' & Hrun & _ & (d & Hd & Hnn) & _).
  exists self', w'. split; [done|]. intros t Ht.
  unfold check_low_items. rewrite Hd. apply low_items_none.
  intros k v Hin%elem_of_map_to_list.
  destruct (Hnn k v Hin) as (q & -> & Hq). exists q. split; [done|lia].
Qed.

Lemma non_numeric_int_value v : non_numeric v = true → int_value v = None.
Proof. by destruct v. Qed.

Lemma low_items_type_error (items : list (string * pyval)) (t : Z) :
  (Forall (λ kv, is_Some (int_value kv.2)) items → ∃ names, low_items items t = Ok names) ∧
  (Exists (λ kv, non_numeric kv.2 = true) items → low_items items t = Err TypeError).
Proof.
  induction items as [|[k v] rest [IHok IHerr]]; simpl.
  - split; [by eauto|]. by intros ?%Exists_nil.
  - unfold lt_int. split.
    + intros [[q Hq] Hrest]%Forall_cons. simpl in Hq. rewrite Hq. simpl.
      destruct (IHok Hrest) as [names ->]. by eauto.
    + intros [Hv|Hrest]%Exists_cons.
      * simpl in Hv. by rewrite (non_numeric_int_value v Hv).
      * destruct (int_value v); simpl; [|done]. by rewrite (IHerr Hrest).
Qed.

(** X8: on a dict, [check_low_items] returns when every quantity is an
    integer or a boolean, and raises [TypeError] when one quantity is
    [None], a string, a list or a dict (a string decoded from the file,
    say), whatever the other quantities are. *)
Theorem check_low_items_type_error (d : gmap string pyval) (path : string) (t : Z) :
  (map_Forall (λ _ v, is_Some (int_value v)) d →
   ∃ names, check_low_items (Inventory (PDict d) path) t = Ok names) ∧
  ((∃ item v, d !! item = Some v ∧ non_numeric v = true) →
   check_low_items (Inventory (PDict d) path) t = Err TypeError).
Proof.
  unfold check_low_items. simpl.
  destruct (low_items_type_error (map_to_list d) t) as [Hok Herr]. split.
  - intros Hd. apply Hok. apply Forall_forall. intros [k v] Hin%elem_of_map_to_list.
    by apply (Hd k v).
  - intros (k & v & Hk & Hv). apply Herr. apply Exists_exists.
    exists (k, v). split; [by apply elem_of_map_to_list|done].
Qed.

(** ** Stocks that a file installed *)

(** X9: on an entry whose quantity is [None], a string, a list or a dict,
    [add_item] and [remove_item] with an integer quantity [>= 0] raise
    [TypeError] and leave the instance and the world as they were. *)
Theorem non_integer_entry_raises (d : gmap string pyval) (path : string) (w : world)
    (name : string) (v : pyval) (n : Z) :
  d !! name = Some v → non_numeric v = true → 0 ≤ n →
  add_item (Inventory (PDict d) path) w (PStr name) (PInt n) =
    Raised TypeError (Inventory (PDict d) path) w ∧
  remove_item (Inventory (PDict d) path) w (PStr name) (PInt n) =
    Raised TypeError (Inventory (PDict d) path) w.
Proof.
  intros Hd Hv%non_numeric_int_value Hn.
  unfold add_item, remove_item, plus_int, minus_int, contains.
  cbn [int_value stock_data].
  rewrite !(bool_decide_eq_false_2 (n < 0)) by lia.
  rewrite Hd. rewrite (bool_decide_eq_true_2 (is_Some (Some v))) by (by eexists).
  cbn [default mbind option_bind from_option id]. rewrite Hv. done.
Qed.

Section LoadedValue.

Variable json_load : string → decoded.


End LoadedValue.

(** ** The report *)

#[local] Instance item_le_total : Total item_le.
Proof. intros a b. unfold item_le. apply (total String.le). Qed.

#[local] Instance item_le_trans : Transitive item_le.
Proof. intros a b c. unfold item_le. apply (transitivity (R := String.le)). Qed.




(** ** What loading and saving leave alone *)

Section PersistenceFrame.

Variable json_dump : pyval → string.
Variable json_load : string → decoded.

(** X12: [load_data] never changes a file nor the path of the instance;
    [save_data] changes no file but the one at the path of the instance,
    and saving a second time leaves the files as the first save did. *)
Theorem persistence_frame (self : inventory) (w : world) :
  fs (world_of (load_data json_load self w)) = fs w ∧
  file_path (self_of (load_data json_load self w)) = file_path self ∧
  (∀ path, path ≠ file_path self →
     fs (world_of (save_data json_dump self w)) !! path = fs w !! path) ∧
  fs (world_of (save_data json_dump self (world_of (save_data json_dump self w)))) =
  fs (world_of (save_data json_dump self w)).
Proof.
  unfold load_data, save_data, read_file, write_file.
  destruct (fs w !! file_path self) as [[text|e|[text|] e]|] eqn:Hf; simpl.
  - rewrite lookup_insert_eq. simpl. rewrite insert_insert_eq.
    destruct (json_load text); repeat split; try done;
      intros other Hother; by rewrite lookup_insert_ne.
  - rewrite Hf. simpl. destruct e; by repeat split.
  - rewrite Hf. simpl. destruct (json_load text); by repeat split.
  - rewrite Hf. simpl. by repeat split.
  - rewrite lookup_insert_eq. simpl. rewrite insert_insert_eq.
    repeat split; try done. intros other Hother. by rewrite lookup_insert_ne.
Qed.

(** X13: the stock that [load_data] installs depends on the file only:
    another instance with the same path, loading while the file is the
    same, gets the same stock whatever its stock was before, and loading
    again changes nothing. *)
Theorem load_data_depends_on_file_only (self other : inventory) (w w2 : world)
    (self' : inventory) (w' : world) :
  load_data json_load self w = Returned self' w' →
  file_path other = file_path self →
  fs w2 !! file_path self = fs w !! file_path self →
  (∃ w3, load_data json_load other w2 = Returned (set_stock (stock_data self') other) w3) ∧
  (∃ w3, load_data json_load self' w' = Returned self' w3).
Proof.
  unfold load_data, read_file. intros Hload Hpath Hfile.
  rewrite Hpath, Hfile.
  destruct (fs w !! file_path self) as [[text|e|[text|] e]|] eqn:Hf.
  - destruct (json_load text) as [v| |c] eqn:Hv; try done;
      injection Hload as <- <-; simpl; rewrite Hf, Hv; by eauto.
  - destruct e; try done. injection Hload as <- <-. simpl. rewrite Hf. by eauto.
  - destruct (json_load text) as [v| |c] eqn:Hv; try done;
      injection Hload as <- <-; simpl; rewrite Hf, Hv; by eauto.
  - injection Hload as <- <-. simpl. rewrite Hf. by eauto.
  - injection Hload as <- <-. simpl. rewrite Hf. by eauto.
Qed.

End PersistenceFrame.

(** ** Quantities and the calls that made them *)

Lemma get_qty_dict d path name :
  get_qty (Inventory (PDict d) path) name = Ok (default (PInt 0) (d !! name)).
Proof. reflexivity. Qed.

(** One call moves the quantity of an item up by what the call adds to it,
    and down by at most what the call removes from it. *)
Lemma perform_get_qty (c : call) (self : inventory) (w : world) (name : string) (q : Z) :
  stock_nonneg self →
  get_qty self name = Ok (PInt q) →
  ∃ self' w' q',
    perform c self w = Returned self' w' ∧
    stock_nonneg self' ∧
    get_qty self' name = Ok (PInt q') ∧
    q + gain name c - loss name c ≤ q' ≤ q + gain name c.
Proof.
  intros Hnn Hq.
  assert (0 ≤ q) as Hq0.
  { destruct (stock_nonneg_get_qty self name Hnn) as (q' & Hq' & ?). congruence. }
  assert (∀ l m a, gain name c = 0 → loss name c = 0 → ∃ self' w' q',
    Returned self (logging l m a w) = Returned self' w' ∧ stock_nonneg self' ∧
    get_qty self' name = Ok (PInt q') ∧
    q + gain name c - loss name c ≤ q' ≤ q + gain name c) as Hsame.
  { intros l m a -> ->. exists self, (logging l m a w), q. repeat split; try done; lia. }
  destruct c as [item qty|item qty]; cbn [perform];
    (destruct item as [| | |key| |];
     try (unfold add_item, remove_item; by apply Hsame));
    (destruct (int_value qty) as [n|] eqn:Hn;
     [|unfold add_item, remove_item; rewrite Hn; apply Hsame;
       unfold gain, loss, amount; rewrite ?Hn; simpl; by repeat case_bool_decide]);
    clear Hsame; destruct self as [s path]; pose proof Hnn as (d & Hs & _);
    simpl in Hs; subst s; rewrite get_qty_dict in Hq; injection Hq as Hq;
    destruct (quantities_lookup _ _ _ key Hnn) as (qk & Hqk & Hcase);
    unfold gain, loss, amount; rewrite Hn; cbn [default from_option id].
  - rewrite (add_item_dict _ _ _ _ _ _ _ Hn Hqk). case_bool_decide.
    + exists (Inventory (PDict d) path). eexists. exists q. split; [done|].
      split; [done|]. rewrite get_qty_dict, Hq. split; [done|]. case_bool_decide; lia.
    + exists (Inventory (PDict (<[key := PInt (qk + n)]> d)) path). eexists.
      exists (if bool_decide (key = name) then q + n else q).
      split; [done|].
      split; [apply quantities_insert; [done|]; simpl;
              destruct Hcase as [[_ ->]|[_ ?]]; lia|].
      rewrite get_qty_dict. case_bool_decide as Hkey.
      * subst key. rewrite lookup_insert_eq. simpl.
        assert (qk = q) as -> by congruence. split; [done|]. lia.
      * rewrite lookup_insert_ne, Hq by done. split; [done|]. lia.
  - destruct Hcase as [[Hk ->]|[Hk Hqk0]].
    + rewrite (remove_item_absent _ _ _ _ _ _ Hn Hk).
      exists (Inventory (PDict d) path). eexists. exists q. split; [done|].
      split; [done|]. rewrite get_qty_dict, Hq. split; [done|].
      case_bool_decide as Hkey; [|lia]. subst key. rewrite Hk in Hq. simpl in Hq.
      assert (q = 0) by congruence. lia.
    + rewrite (remove_item_dict _ _ _ _ _ _ _ Hn Hk).
      assert (key = name → qk = q) as Hsameq.
      { intros ->. rewrite Hk in Hq. simpl in Hq. congruence. }
      case_bool_decide as Hneg; [|case_bool_decide as Hle].
      * exists (Inventory (PDict d) path). eexists. exists q. split; [done|].
        split; [done|]. rewrite get_qty_dict, Hq. split; [done|].
        case_bool_decide; lia.
      * exists (Inventory (PDict (delete key d)) path). eexists.
        exists (if bool_decide (key = name) then 0 else q). split; [done|].
        split; [by apply quantities_delete|]. rewrite get_qty_dict.
        case_bool_decide as Hkey.
        -- subst key. rewrite lookup_delete_eq. simpl. split; [done|].
           specialize (Hsameq eq_refl). lia.
        -- rewrite lookup_delete_ne, Hq by done. split; [done|]. lia.
      * exists (Inventory (PDict (<[key := PInt (qk - n)]> d)) path). eexists.
        exists (if bool_decide (key = name) then q - n else q). split; [done|].
        split; [apply quantities_insert; [done|simpl; lia]|]. rewrite get_qty_dict.
        case_bool_decide as Hkey.
        -- subst key. rewrite lookup_insert_eq. simpl.
           specialize (Hsameq eq_refl). subst qk. split; [done|]. lia.
        -- rewrite lookup_insert_ne, Hq by done. split; [done|]. lia.
Qed.

(** X14: after any sequence of calls on an empty stock, the quantity of an
    item is at most the sum of the quantities added to it and at least that
    sum minus the sum of the quantities removed from it (and never below
    0); rejected calls count for nothing. *)
Theorem quantity_bounded_by_calls (cs : list call) (path : string) (w : world)
    (name : string) :
  ∃ self' w' q,
    run cs (Inventory (PDict ∅) path) w = Returned self' w' ∧
    get_qty self' name = Ok (PInt q) ∧
    0 ≤ q ∧
    sum_over (gain name) cs - sum_over (loss name) cs ≤ q ≤ sum_over (gain name) cs.
Proof.
  assert (∀ self w0 q0, stock_nonneg self → get_qty self name = Ok (PInt q0) →
    ∃ self' w' q, run cs self w0 = Returned self' w' ∧ stock_nonneg self' ∧
      get_qty self' name = Ok (PInt q) ∧
      q0 + sum_over (gain name) cs - sum_over (loss name) cs ≤ q
        ≤ q0 + sum_over (gain name) cs) as Hgen.
  { induction cs as [|c cs IH]; intros self w0 q0 Hnn Hq; simpl.
    - exists self, w0, q0. repeat split; try done; lia.
    - destruct (perform_get_qty c self w0 name q0 Hnn Hq)
        as (s1 & w1 & q1 & -> & Hnn1 & Hq1 & Hb1).
      destruct (IH s1 w1 q1 Hnn1 Hq1) as (s2 & w2 & q2 & -> & Hnn2 & Hq2 & Hb2).
      exists s2, w2, q2. repeat split; try done; lia. }
  destruct (Hgen (Inventory (PDict ∅) path) w 0 (empty_stock_nonneg path) eq_refl)
    as (s & w' & q & Hrun & Hnn & Hq & Hb).
  exists s, w', q. split; [done|]. split; [done|]. split; [|lia].
  destruct (stock_nonneg_get_qty s name Hnn) as (q' & Hq' & ?). congruence.
Qed.

(** ** The demonstration *)







Section MainFacts.

Variable json_dump : pyval → string.
Variable json_load : string → decoded.



End MainFacts.

(** ** The properties on concrete stocks *)

(** X2 on an item that is a number and on a quantity that is a string. *)
Lemma invalid_arguments_rejected_example :
  add_item (Inventory (PDict {["pear" := PInt 1]}) "inventory.json") (World ∅ [])
    (PInt 7) (PInt 1) =
  Returned (Inventory (PDict {["pear" := PInt 1]}) "inventory.json")
    (World ∅ [LogRecord WARNING "Invalid item name or quantity type." []]) ∧
  remove_item (Inventory (PDict {["pear" := PInt 1]}) "inventory.json") (World ∅ [])
    (PStr "pear") (PStr "1") =
  Returned (Inventory (PDict {["pear" := PInt 1]}) "inventory.json")
    (World ∅ [LogRecord WARNING "Invalid item name or quantity type." []]).
Proof.
  split.
  - apply (invalid_arguments_rejected
             (Inventory (PDict {["pear" := PInt 1]}) "inventory.json") (World ∅ [])
             (PInt 7) (PInt 1)).
    left. discriminate.
  - apply (invalid_arguments_rejected
             (Inventory (PDict {["pear" := PInt 1]}) "inventory.json") (World ∅ [])
             (PStr "pear") (PStr "1")).
    right. reflexivity.
Defined.

(** X3 on an item in stock, on a missing item and on an entry of 0. *)
Lemma add_then_remove_example :
  (∃ w', run [Add (PStr "pear") (PInt 4); Remove (PStr "pear") (PInt 4)]
           (Inventory (PDict {["pear" := PInt 1]}) "inventory.json") (World ∅ []) =
         Returned (Inventory (PDict {["pear" := PInt 1]}) "inventory.json") w') ∧
  (∃ w', run [Add (PStr "plum") (PInt 4); Remove (PStr "plum") (PInt 4)]
           (Inventory (PDict {["pear" := PInt 1]}) "inventory.json") (World ∅ []) =
         Returned (Inventory (PDict {["pear" := PInt 1]}) "inventory.json") w') ∧
  (∃ w', run [Add (PStr "pear") (PInt 4); Remove (PStr "pear") (PInt 4)]
           (Inventory (PDict {["pear" := PInt 0]}) "inventory.json") (World ∅ []) =
         Returned (Inventory (PDict ∅) "inventory.json") w').
Proof.
  split; [|split].
  - destruct (add_then_remove {["pear" := PInt 1]} "inventory.json" (World ∅ []) "pear" 4)
      as [Hback _]; [lia|].
    apply Hback. right. exists 1. split; [vm_compute; reflexivity|lia].
  - destruct (add_then_remove {["pear" := PInt 1]} "inventory.json" (World ∅ []) "plum" 4)
      as [Hback _]; [lia|].
    apply Hback. left. vm_compute; reflexivity.
  - destruct (add_then_remove {["pear" := PInt 0]} "inventory.json" (World ∅ []) "pear" 4)
      as [_ Hzero]; [lia|].
    destruct Hzero as [w' Hw]; [vm_compute; reflexivity|].
    exists w'. rewrite Hw. vm_compute. reflexivity.
Defined.

(** X4 on "pear" and "plum". *)
Lemma adds_commute_example :
  raised (run [Add (PStr "pear") (PInt 2); Add (PStr "plum") (PInt 3)]
            (Inventory (PDict {["pear" := PInt 1]}) "inventory.json") (World ∅ [])) = None ∧
  self_of (run [Add (PStr "pear") (PInt 2); Add (PStr "plum") (PInt 3)]
             (Inventory (PDict {["pear" := PInt 1]}) "inventory.json") (World ∅ [])) =
  self_of (run [Add (PStr "plum") (PInt 3); Add (PStr "pear") (PInt 2)]
             (Inventory (PDict {["pear" := PInt 1]}) "inventory.json") (World ∅ [])).
Proof.
  apply (adds_commute {["pear" := PInt 1]} "inventory.json" (World ∅ [])
           "pear" "plum" 2 3 1 0); vm_compute; reflexivity.
Defined.

(** X5 on 1 of "pear". *)
Lemma repeated_calls_accumulate_example :
  self_of (run [Add (PStr "pear") (PInt 2); Add (PStr "pear") (PInt 3)]
             (Inventory (PDict {["pear" := PInt 1]}) "inventory.json") (World ∅ [])) =
  self_of (run [Add (PStr "pear") (PInt 5)]
             (Inventory (PDict {["pear" := PInt 1]}) "inventory.json") (World ∅ [])) ∧
  self_of (run [Remove (PStr "pear") (PInt 2); Remove (PStr "pear") (PInt 3)]
             (Inventory (PDict {["pear" := PInt 1]}) "inventory.json") (World ∅ [])) =
  self_of (run [Remove (PStr "pear") (PInt 5)]
             (Inventory (PDict {["pear" := PInt 1]}) "inventory.json") (World ∅ [])).
Proof.
  destruct (repeated_calls_accumulate {["pear" := PInt 1]} "inventory.json" (World ∅ [])
              "pear" 2 3 1) as [Hadd Hrem]; [lia|lia|].
  split.
  - apply Hadd. vm_compute; reflexivity.
  - apply Hrem. right. vm_compute; reflexivity.
Defined.

(** X6 at the thresholds 5 and 7. *)
Lemma check_low_items_monotone_example :
  check_low_items (Inventory (PDict {["pear" := PInt 1; "plum" := PInt 6]}) "inventory.json")
    5 = Ok ["pear"] ∧
  check_low_items (Inventory (PDict {["pear" := PInt 1; "plum" := PInt 6]}) "inventory.json")
    7 = Ok ["pear"; "plum"] ∧
  ["pear"] `sublist_of` ["pear"; "plum"].
Proof.
  split; [vm_compute; reflexivity|]. split; [vm_compute; reflexivity|].
  apply (check_low_items_monotone
           (Inventory (PDict {["pear" := PInt 1; "plum" := PInt 6]}) "inventory.json")
           5 7 ["pear"] ["pear"; "plum"]); [lia|vm_compute; reflexivity..].
Defined.

(** X9 on an entry that holds a string. *)
Lemma non_integer_entry_raises_example :
  add_item (Inventory (PDict {["pear" := PStr "many"]}) "inventory.json") (World ∅ [])
    (PStr "pear") (PInt 1) =
  Raised TypeError (Inventory (PDict {["pear" := PStr "many"]}) "inventory.json")
    (World ∅ []) ∧
  remove_item (Inventory (PDict {["pear" := PStr "many"]}) "inventory.json") (World ∅ [])
    (PStr "pear") (PInt 1) =
  Raised TypeError (Inventory (PDict {["pear" := PStr "many"]}) "inventory.json")
    (World ∅ []).
Proof.
  apply (non_integer_entry_raises {["pear" := PStr "many"]} "inventory.json" (World ∅ [])
           "pear" (PStr "many") 1); [vm_compute; reflexivity|reflexivity|lia].
Defined.


(** X13 on a file that holds the empty object. *)
Lemma load_data_depends_on_file_only_example :
  ∃ w3,
    load_data Json.decode (Inventory (PDict {["pear" := PInt 1]}) "inventory.json")
      (World {["inventory.json" := Regular "{}"]} []) =
    Returned (Inventory (PDict ∅) "inventory.json") w3.
Proof.
  destruct (load_data_depends_on_file_only Json.decode
              (Inventory (PDict {["plum" := PInt 2]}) "inventory.json")
              (Inventory (PDict {["pear" := PInt 1]}) "inventory.json")
              (World {["inventory.json" := Regular "{}"]} [])
              (World {["inventory.json" := Regular "{}"]} [])
              (Inventory (PDict ∅) "inventory.json")
              (World {["inventory.json" := Regular "{}"]}
                 [LogRecord INFO "Inventory data loaded successfully." []]))
    as [Hother _]; [vm_compute; reflexivity|reflexivity|reflexivity|].
  exact Hother.
Defined.


